(** * Amana Bookstore Express API: a shallow embedding of [server.js]

    The route handlers of [server.js] are embedded as functions from a
    request and the state of the two JSON files to a response and the new
    state of the files.  The values the handlers manipulate are the values
    of the JavaScript run time (what [JSON.parse] and [express.json()]
    produce), so the first part of the file embeds the fragment of
    ECMAScript that the handlers use: numbers, coercions, [parseInt],
    [Math.max], [Array.prototype.sort] and friends.

    Conventions of the embedding.
    - A JavaScript number is [NaN], an infinity or a finite number, which
      is written as a decimal [m * 10^e] and stands for the binary64 value
      nearest to it, as a literal does.  Whatever consumes a number takes
      that binary64 value ([binary64]), and [*], [+], [-], [parseInt] and
      the conversion of a string round their result to binary64, with
      overflow to an infinity; a number is printed as the shortest decimal
      that reads back.  The sign of zero is not represented: the handlers
      never divide, and [-0] prints and is stored as [0].
    - A string is a [string] of code units below 256.
    - An object is the list of its own properties in insertion order.  Two
      things an engine does with particular keys are not represented: it
      lists the keys that are array indices first, and a conversion to a
      string or a number throws on an object that has a [toString] of its
      own that cannot be called (here it is converted like any object).
    - An engine bounds the number of arguments of a call, and so the
      number of ids that [Math.max(...ids)] takes; the embedding has no
      such bound, and the statement about the id of a new book carries it
      as a premise ([SPREAD_ARGUMENTS]).
    - [Date.parse] depends on the engine and on the time zone of the host:
      the date-range handler takes it as a parameter.
    - Reading a file yields the parsed document or throws; writing it
      stores what [JSON.parse] would read back, or throws, and what a
      write that throws leaves in the file is part of the failure
      ([write_failure]): nothing is assumed of it.
    - A handler runs from its first line to its answer, except where
      requests that overlap are spoken of ([overlapping_post_books]).

    The repository also holds an earlier copy of the server, with the
    date-range and the by-id routes only; their text is the same, and the
    embedding below covers both.  The route tables of the two are
    [Router.app] and [Router.app_earlier]. *)

From Stdlib Require Import ZArith List String Ascii Bool Lia.
From Stdlib Require Import Sorted Permutation.
From Stdlib Require DecimalN DecimalPos DecimalFacts.
Import ListNotations.

Open Scope string_scope.
Open Scope Z_scope.
Open Scope list_scope.

Set Warnings "-register-all".

(* ------------------------------------------------------------------ *)
(** ** Numbers *)

Inductive number : Type :=
| NaN
| Inf (negative : bool)
| Fin (m e : Z).

Definition num_of_Z (z : Z) : number := Fin z 0.
Definition num_of_nat (n : nat) : number := Fin (Z.of_nat n) 0.

(** Two finite numbers brought to their common (smaller) exponent. *)
Definition align (m1 e1 m2 e2 : Z) : Z * Z :=
  let e := Z.min e1 e2 in (m1 * 10 ^ (e1 - e), m2 * 10 ^ (e2 - e)).

Definition fin_compare (m1 e1 m2 e2 : Z) : comparison :=
  let '(a, b) := align m1 e1 m2 e2 in a ?= b.

(** The relational operators; every comparison with [NaN] is false. *)
Definition num_lt (x y : number) : bool :=
  match x, y with
  | NaN, _ | _, NaN => false
  | Inf a, Inf b => a && negb b
  | Inf a, Fin _ _ => a
  | Fin _ _, Inf b => negb b
  | Fin m1 e1, Fin m2 e2 =>
      match fin_compare m1 e1 m2 e2 with Lt => true | _ => false end
  end.

Definition num_eq (x y : number) : bool :=
  match x, y with
  | NaN, _ | _, NaN => false
  | Inf a, Inf b => Bool.eqb a b
  | Fin m1 e1, Fin m2 e2 =>
      match fin_compare m1 e1 m2 e2 with Eq => true | _ => false end
  | _, _ => false
  end.

Definition num_gt (x y : number) : bool := num_lt y x.
Definition num_le (x y : number) : bool := num_lt x y || num_eq x y.
Definition num_ge (x y : number) : bool := num_le y x.

(** The global [isNaN] on a number. *)
Definition isNaN (x : number) : bool :=
  match x with NaN => true | _ => false end.

(* ------------------------------------------------------------------ *)
(** ** binary64

    The numbers of the run time are binary64 values.  A finite number is
    written as a decimal; a decimal that is not a binary64 value stands
    for the binary64 value nearest to it, as the literal does in a JSON
    text or in a request.  [*], [+] and [-] take the binary64 values of
    their operands and round what they compute to the nearest binary64
    value (to the even one on a tie), an infinity beyond the greatest. *)

(** [|m * 10^e| * 2^1074] as a fraction [(a, d)]: the magnitude of a
    finite number counted in units of the least positive binary64 value. *)
Definition scaled (m e : Z) : Z * Z :=
  if 0 <=? e then (Z.shiftl (Z.abs m * 10 ^ e) 1074, 1)
  else (Z.shiftl (Z.abs m) 1074, 10 ^ (- e)).

(** [a / (d * 2^j)] rounded to the nearest integer, to the even one on a
    tie; the quotient is taken on the bits of [a] from place [j] up, and
    the bits below count in the remainder. *)
Definition round_at (a d j : Z) : Z :=
  let hi := Z.shiftr a j in
  let q := hi / d in
  let r := Z.shiftl (hi mod d) j + Z.land a (Z.ones j) in
  match 2 * r ?= Z.shiftl d j with
  | Lt => q
  | Gt => q + 1
  | Eq => if Z.even q then q else q + 1
  end.

(** The binary64 value nearest to [a / d] units, as [(M, j)] for
    [M * 2^j] units: [j] is chosen so that [M] has 53 bits, or fewer when
    [j = 0] (the subnormal numbers). *)
Definition nearest (a d : Z) : Z * Z :=
  let j0 := Z.max (Z.log2 a - Z.log2 d - 52) 0 in
  let j := if (0 <? j0) && (Z.shiftr a j0 / d <? 2 ^ 52) then j0 - 1
           else j0 in
  (round_at a d j, j).

(** How many times 2 divides a positive number. *)
Fixpoint twos (p : positive) : Z :=
  match p with
  | xO q => 1 + twos q
  | _ => 0
  end.

Definition trailing_zeros (n : Z) : Z :=
  match n with
  | Zpos p => twos p
  | _ => 0
  end.

(** [M * 2^j] units as a number, in lowest terms; beyond the greatest
    binary64 value it is an infinity. *)
Definition of_units (neg : bool) (M j : Z) : number :=
  if 1074 <=? j then
    if (0 <? M) && (1024 <=? Z.log2 M + (j - 1074)) then Inf neg
    else Fin (Z.shiftl (if neg then - M else M) (j - 1074)) 0
  else
    let k := 1074 - j in
    let g := Z.min k (trailing_zeros M) in
    let M' := Z.shiftr M g in
    Fin ((if neg then - M' else M') * 5 ^ (k - g)) (g - k).

(** [N] units is a binary64 value: [N] has at most 53 significant bits. *)
Definition fits (N : Z) : bool :=
  if N <? 2 ^ 53 then true
  else Z.land N (Z.ones (Z.log2 N - 52)) =? 0.

(** A whole number of units, below [2^1024], that fits. *)
Definition is_binary64 (m e : Z) : bool :=
  let '(a, d) := scaled m e in
  if a mod d =? 0 then
    if Z.log2 (a / d) <? 2098 then fits (a / d) else false
  else false.

(** The binary64 value nearest to a number (ties to even): what a numeric
    literal denotes and what an arithmetic operation returns. *)
Definition binary64 (x : number) : number :=
  match x with
  | Fin m e =>
      if is_binary64 m e then x
      else let '(a, d) := scaled m e in
           let '(M, j) := nearest a d in
           of_units (m <? 0) M j
  | _ => x
  end.

(** A number that is a binary64 value. *)
Definition is_number64 (x : number) : bool :=
  match x with
  | Fin m e => is_binary64 m e
  | _ => true
  end.


(** The product and the sum of the reals, before they are rounded. *)
Definition exact_mul (x y : number) : number :=
  match x, y with
  | NaN, _ | _, NaN => NaN
  | Inf a, Inf b => Inf (xorb a b)
  | Inf a, Fin m _ | Fin m _, Inf a =>
      if m =? 0 then NaN else Inf (xorb a (m <? 0))
  | Fin m1 e1, Fin m2 e2 => Fin (m1 * m2) (e1 + e2)
  end.

Definition exact_add (x y : number) : number :=
  match x, y with
  | NaN, _ | _, NaN => NaN
  | Inf a, Inf b => if Bool.eqb a b then Inf a else NaN
  | Inf a, Fin _ _ | Fin _ _, Inf a => Inf a
  | Fin m1 e1, Fin m2 e2 =>
      let '(a, b) := align m1 e1 m2 e2 in Fin (a + b) (Z.min e1 e2)
  end.

Definition num_neg (x : number) : number :=
  match x with
  | NaN => NaN
  | Inf a => Inf (negb a)
  | Fin m e => Fin (- m) e
  end.

(** [x * y] *)
Definition num_mul (x y : number) : number :=
  binary64 (exact_mul (binary64 x) (binary64 y)).

(** [x + y] *)
Definition num_add (x y : number) : number :=
  binary64 (exact_add (binary64 x) (binary64 y)).

(** [x - y] *)
Definition num_sub (x y : number) : number :=
  binary64 (exact_add (binary64 x) (num_neg (binary64 y))).

(** [Math.max(...xs)]: minus infinity on no argument, [NaN] as soon as one
    argument is [NaN]. *)
Definition max2 (x y : number) : number :=
  match x, y with
  | NaN, _ | _, NaN => NaN
  | _, _ => if num_lt x y then y else x
  end.

Definition Math_max (xs : list number) : number :=
  fold_left max2 xs (Inf true).

(* ------------------------------------------------------------------ *)
(** ** Characters and digit strings *)

Definition chars (s : string) : list ascii := list_ascii_of_string s.
Definition of_chars (l : list ascii) : string := string_of_list_ascii l.

Definition code (c : ascii) : Z := Z.of_N (N_of_ascii c).

(** [StrWhiteSpaceChar] among the code units below 256. *)
Definition is_space (c : ascii) : bool :=
  let n := code c in
  ((9 <=? n) && (n <=? 13)) || (n =? 32) || (n =? 160).

Definition is_digit (c : ascii) : bool :=
  let n := code c in (48 <=? n) && (n <=? 57).

(** The value of a digit in a radix up to 16, if it is one. *)
Definition digit_value (radix : Z) (c : ascii) : option Z :=
  let n := code c in
  let v :=
    if (48 <=? n) && (n <=? 57) then Some (n - 48)
    else if (97 <=? n) && (n <=? 102) then Some (n - 87)
    else if (65 <=? n) && (n <=? 70) then Some (n - 55)
    else None in
  match v with
  | Some d => if d <? radix then Some d else None
  | None => None
  end.

(** The longest prefix of radix digits, read left to right onto [acc]; the
    boolean tells whether a digit was read. *)
Fixpoint read_digits (radix : Z) (l : list ascii) (acc : Z) (seen : bool)
  : Z * bool * list ascii :=
  match l with
  | [] => (acc, seen, [])
  | c :: r =>
      match digit_value radix c with
      | Some d => read_digits radix r (radix * acc + d) true
      | None => (acc, seen, l)
      end
  end.

Fixpoint drop_while {A} (p : A -> bool) (l : list A) : list A :=
  match l with
  | [] => []
  | x :: r => if p x then drop_while p r else l
  end.

Definition trim_start (l : list ascii) : list ascii := drop_while is_space l.
Definition trim (l : list ascii) : list ascii :=
  rev (drop_while is_space (rev (drop_while is_space l))).

Fixpoint uint_chars (d : Decimal.uint) : list ascii :=
  match d with
  | Decimal.Nil => []
  | Decimal.D0 r => "0"%char :: uint_chars r
  | Decimal.D1 r => "1"%char :: uint_chars r
  | Decimal.D2 r => "2"%char :: uint_chars r
  | Decimal.D3 r => "3"%char :: uint_chars r
  | Decimal.D4 r => "4"%char :: uint_chars r
  | Decimal.D5 r => "5"%char :: uint_chars r
  | Decimal.D6 r => "6"%char :: uint_chars r
  | Decimal.D7 r => "7"%char :: uint_chars r
  | Decimal.D8 r => "8"%char :: uint_chars r
  | Decimal.D9 r => "9"%char :: uint_chars r
  end.

(** The decimal digits of a natural number, most significant first. *)
Definition digits_of_N (n : N) : list ascii := uint_chars (N.to_uint n).

(* ------------------------------------------------------------------ *)
(** ** [Number::toString] (radix 10) *)

Definition is_zero_char (c : ascii) : bool := code c =? 48.

(** The digits [s] of the mantissa without its trailing zeros, and the
    position [n] of the decimal point: the number is [0.s * 10^n]. *)
Definition significand (m e : Z) : list ascii * Z :=
  let ds := digits_of_N (Z.abs_N m) in
  let s := rev (drop_while is_zero_char (rev ds)) in
  (s, Z.of_nat (List.length ds) + e).

Definition zeros (n : Z) : list ascii := repeat "0"%char (Z.to_nat n).

Definition fin_to_chars (m e : Z) : list ascii :=
  if m =? 0 then ["0"%char] else
  let '(s, n) := significand m e in
  let k := Z.of_nat (List.length s) in
  let body :=
    if (k <=? n) && (n <=? 21) then s ++ zeros (n - k)
    else if (0 <? n) && (n <=? 21) then
      firstn (Z.to_nat n) s ++ "."%char :: skipn (Z.to_nat n) s
    else if (-6 <? n) && (n <=? 0) then
      "0"%char :: "."%char :: zeros (- n) ++ s
    else
      let ex := (if n - 1 <? 0 then "-"%char else "+"%char)
                  :: digits_of_N (Z.abs_N (n - 1)) in
      match s with
      | [] => []
      | [d] => d :: "e"%char :: ex
      | d :: r => d :: "."%char :: r ++ "e"%char :: ex
      end in
  if m <? 0 then "-"%char :: body else body.

(** The decimal of fewest digits that reads back as the binary64 value
    [w = m * 10^e], [m > 0]: the digits of [m] are cut [t] places from the
    right, most places first, and the two decimals next to [w] there are
    tried; when both read back as [w], the nearer one is taken. *)
Fixpoint shortest_from (w : number) (m e : Z) (t : nat) : Z * Z :=
  match t with
  | O => (m, e)
  | S t' =>
      let p := 10 ^ Z.of_nat t in
      let lo := m / p in
      let e' := e + Z.of_nat t in
      let ok_lo := num_eq (binary64 (Fin lo e')) w in
      let ok_hi := num_eq (binary64 (Fin (lo + 1) e')) w in
      if ok_lo && ok_hi then
        match 2 * (m mod p) ?= p with
        | Lt => (lo, e')
        | Gt => (lo + 1, e')
        | Eq => if Z.even lo then (lo, e') else (lo + 1, e')
        end
      else if ok_lo then (lo, e')
      else if ok_hi then (lo + 1, e')
      else shortest_from w m e t'
  end.

(** [s * 10^t] with its sign; an integer is written out in full. *)
Definition shortest (m e : Z) : Z * Z :=
  let a := Z.abs m in
  let '(s, t) := shortest_from (Fin a e) a e
                   (List.length (digits_of_N (Z.to_N a))) in
  let s := if m <? 0 then - s else s in
  if 0 <=? t then (s * 10 ^ t, 0) else (s, t).

(** [Number::toString]: the digits are those of the shortest decimal that
    reads back as the number. *)
Definition number_toString (x : number) : string :=
  match binary64 x with
  | NaN => "NaN"
  | Inf false => "Infinity"
  | Inf true => "-Infinity"
  | Fin m e => let '(s, t) := shortest m e in of_chars (fin_to_chars s t)
  end.

(* ------------------------------------------------------------------ *)
(** ** [parseInt(string)] with no radix, and [StringToNumber] *)

Definition take_sign (l : list ascii) : bool * list ascii :=
  match l with
  | c :: r => if Ascii.eqb c "-" then (true, r)
              else if Ascii.eqb c "+" then (false, r)
              else (false, l)
  | [] => (false, [])
  end.

(** A leading [0x] or [0X] selects radix 16 and is removed. *)
Definition take_hex_prefix (l : list ascii) : Z * list ascii :=
  match l with
  | c1 :: c2 :: r =>
      if Ascii.eqb c1 "0" && (Ascii.eqb c2 "x" || Ascii.eqb c2 "X")
      then (16, r) else (10, l)
  | _ => (10, l)
  end.

Definition parseInt_chars (l : list ascii) : number :=
  let '(neg, s) := take_sign (trim_start l) in
  let '(radix, s) := take_hex_prefix s in
  let '(v, seen, _) := read_digits radix s 0 false in
  if seen then binary64 (num_of_Z (if neg then - v else v)) else NaN.

Definition parseInt_string (s : string) : number := parseInt_chars (chars s).

Fixpoint span {A} (p : A -> bool) (l : list A) : list A * list A :=
  match l with
  | [] => ([], [])
  | x :: r => if p x then let '(a, b) := span p r in (x :: a, b) else ([], l)
  end.

Definition digits_value (l : list ascii) : Z :=
  let '(v, _, _) := read_digits 10 l 0 false in v.

(** [ExponentPart] opt, then the end of the literal. *)
Definition exponent_part (l : list ascii) : option Z :=
  match l with
  | [] => Some 0
  | c :: r =>
      if (code c =? 101) || (code c =? 69) then
        let '(neg, r) := take_sign r in
        let '(ds, rest) := span is_digit r in
        match ds, rest with
        | _ :: _, [] => Some (if neg then - digits_value ds else digits_value ds)
        | _, _ => None
        end
      else None
  end.

Definition unsigned_decimal (l : list ascii) : option (Z * Z) :=
  let '(ip, r1) := span is_digit l in
  let '(fp, r2) :=
    match r1 with
    | "."%char :: r => span is_digit r
    | _ => ([], r1)
    end in
  match ip ++ fp with
  | [] => None
  | ds =>
      match exponent_part r2 with
      | Some ex => Some (digits_value ds, ex - Z.of_nat (List.length fp))
      | None => None
      end
  end.

Definition non_decimal (radix : Z) (l : list ascii) : number :=
  match read_digits radix l 0 false with
  | (v, true, []) => binary64 (num_of_Z v)
  | _ => NaN
  end.

Definition StringToNumber (s : string) : number :=
  match trim (chars s) with
  | [] => num_of_Z 0
  | "0"%char :: "x"%char :: r | "0"%char :: "X"%char :: r => non_decimal 16 r
  | "0"%char :: "o"%char :: r | "0"%char :: "O"%char :: r => non_decimal 8 r
  | "0"%char :: "b"%char :: r | "0"%char :: "B"%char :: r => non_decimal 2 r
  | l =>
      let '(neg, u) := take_sign l in
      if String.eqb (of_chars u) "Infinity" then Inf neg
      else match unsigned_decimal u with
           | Some (m, e) => binary64 (Fin (if neg then - m else m) e)
           | None => NaN
           end
  end.

(* ------------------------------------------------------------------ *)
(** ** Values *)

(** The values of the run time that [JSON.parse], [express.json()] and the
    query parser produce, and [undefined]. *)
Inductive value : Type :=
| VUndefined
| VNull
| VBool (b : bool)
| VNum (n : number)
| VStr (s : string)
| VArr (elems : list value)
| VObj (props : list (string * value)).

(** [ToBoolean] *)
Definition truthy (v : value) : bool :=
  match v with
  | VUndefined | VNull => false
  | VBool b => b
  | VNum x =>
      match binary64 x with
      | NaN => false
      | Inf _ => true
      | Fin m _ => negb (m =? 0)
      end
  | VStr s => negb (String.eqb s "")
  | VArr _ | VObj _ => true
  end.

(** [ToString]; an array is joined with commas, a plain object is
    ["[object Object]"]. *)
Fixpoint ToString (v : value) : string :=
  match v with
  | VUndefined => "undefined"
  | VNull => "null"
  | VBool true => "true"
  | VBool false => "false"
  | VNum n => number_toString n
  | VStr s => s
  | VArr l =>
      String.concat ","
        (map (fun x => match x with
                       | VUndefined | VNull => ""
                       | _ => ToString x
                       end) l)
  | VObj _ => "[object Object]"
  end.

(** [ToNumber]; arrays and objects go through [ToPrimitive], that is
    through their string. *)
Definition ToNumber (v : value) : number :=
  match v with
  | VUndefined => NaN
  | VNull => num_of_Z 0
  | VBool true => num_of_Z 1
  | VBool false => num_of_Z 0
  | VNum n => n
  | VStr s => StringToNumber s
  | VArr _ | VObj _ => StringToNumber (ToString v)
  end.

(** [x === y].  An array or an object is equal to itself only; the handlers
    compare a property with a route parameter, so no two operands are ever
    the same reference. *)
Definition strict_eq (x y : value) : bool :=
  match x, y with
  | VUndefined, VUndefined | VNull, VNull => true
  | VBool a, VBool b => Bool.eqb a b
  | VNum a, VNum b => num_eq (binary64 a) (binary64 b)
  | VStr a, VStr b => String.eqb a b
  | _, _ => false
  end.

(** [parseInt(v)]: the argument is converted to a string first. *)
Definition parseInt (v : value) : number := parseInt_string (ToString v).

(** [x || y] on values. *)
Definition or_else (x y : value) : value := if truthy x then x else y.

(* ------------------------------------------------------------------ *)
(** ** Objects *)

Fixpoint lookup (k : string) (ps : list (string * value)) : option value :=
  match ps with
  | [] => None
  | (k', v) :: r => if String.eqb k k' then Some v else lookup k r
  end.

(** [o.k] where [o] is neither [null] nor [undefined], for the property
    names the handlers read: none of them lives on a prototype, and none is
    an array index. *)
Definition prop (o : value) (k : string) : value :=
  match o with
  | VObj ps => match lookup k ps with Some v => v | None => VUndefined end
  | VArr l => if String.eqb k "length" then VNum (num_of_nat (List.length l))
              else VUndefined
  | VStr s => if String.eqb k "length" then VNum (num_of_nat (String.length s))
              else VUndefined
  | _ => VUndefined
  end.

(** [o[k] = v] on the property list of an object: an existing property
    keeps its place. *)
Fixpoint set_prop (ps : list (string * value)) (k : string) (v : value)
  : list (string * value) :=
  match ps with
  | [] => [(k, v)]
  | (k', v') :: r =>
      if String.eqb k k' then (k, v) :: r else (k', v') :: set_prop r k v
  end.

Fixpoint indexed {A} (i : nat) (l : list A) : list (string * A) :=
  match l with
  | [] => []
  | x :: r => (number_toString (num_of_nat i), x) :: indexed (S i) r
  end.

(** The own enumerable properties that [{...v}] copies. *)
Definition own_props (v : value) : list (string * value) :=
  match v with
  | VObj ps => ps
  | VArr l => indexed 0 l
  | VStr s => indexed 0 (map (fun c => VStr (String c "")) (chars s))
  | _ => []
  end.

Definition assign (acc : list (string * value)) (kv : string * value)
  : list (string * value) :=
  set_prop acc (fst kv) (snd kv).

(** [{ ...ps, ...v }] *)
Definition spread (ps : list (string * value)) (v : value)
  : list (string * value) :=
  fold_left assign (own_props v) ps.

(** [JSON.parse(JSON.stringify(v))]: what is read back from a file that
    [v] was written to.  A property that is [undefined] is dropped, an
    element that is [undefined] and a number that is not finite become
    [null]. *)
Fixpoint json_clone (v : value) : value :=
  match v with
  | VNum x =>
      match binary64 x with
      | Fin _ _ => v
      | _ => VNull
      end
  | VArr l =>
      VArr (map (fun x => match x with
                          | VUndefined => VNull
                          | _ => json_clone x
                          end) l)
  | VObj ps =>
      VObj ((fix props (ps : list (string * value)) :=
               match ps with
               | [] => []
               | (_, VUndefined) :: r => props r
               | (k, x) :: r => (k, json_clone x) :: props r
               end) ps)
  | _ => v
  end.

(** What an element of an array and the properties of an object are read
    back as. *)
Definition json_element (x : value) : value :=
  match x with
  | VUndefined => VNull
  | _ => json_clone x
  end.

Definition json_props (ps : list (string * value)) : list (string * value) :=
  match json_clone (VObj ps) with
  | VObj qs => qs
  | _ => []
  end.

(* ------------------------------------------------------------------ *)
(** ** Exceptions, the two files, and the handler monad *)

(** A thrown [Error] with its [message]. *)
Inductive exn : Type := Error (message : string).

Definition message_of (e : exn) : string :=
  match e with Error m => m end.

(** How [fs.writeFile] fails on a file: the message of the error it
    throws, and what reading the file yields afterwards.  The file is
    opened with the flag [w], which truncates it: a write that fails
    before the file is open leaves it as it was ([leaves] is [None]); one
    that fails later leaves an empty or a partly written file, which
    [JSON.parse] refuses. *)
Record write_failure : Type := {
  thrown : string;
  leaves : option (string + value)
}.

(** A file under [data/]: what reading and parsing it yields (the message
    of the error thrown, or the parsed document), and whether and how
    [fs.writeFile] on it fails. *)
Record file : Type := {
  contents : string + value;
  write_error : option write_failure
}.

Record disk : Type := {
  books_json : file;
  reviews_json : file
}.

Definition M (A : Type) : Type := disk -> (exn + A) * disk.

Definition ret {A} (x : A) : M A := fun d => (inr x, d).
Definition throw {A} (e : exn) : M A := fun d => (inl e, d).
Definition bind {A B} (m : M A) (f : A -> M B) : M B :=
  fun d => match m d with
           | (inl e, d') => (inl e, d')
           | (inr x, d') => f x d'
           end.

Notation "x <- m ;; k" := (bind m (fun x => k))
  (at level 61, m at next level, right associativity).
Notation "m ;;; k" := (bind m (fun _ => k))
  (at level 61, right associativity).

Definition TypeError_read (k : string) (o : value) : exn :=
  Error ("Cannot read properties of " ++ ToString o
           ++ " (reading '" ++ k ++ "')")%string.

Definition TypeError_not_function (what : string) : exn :=
  Error (what ++ " is not a function")%string.

(** [o.k]: throws a [TypeError] when [o] is [null] or [undefined]. *)
Definition get (o : value) (k : string) : M value :=
  match o with
  | VUndefined | VNull => throw (TypeError_read k o)
  | _ => ret (prop o k)
  end.

(** The receiver of an array method: [name.k.method(...)], where [o] is the
    value of [name], throws unless [o.k] is an array. *)
Definition get_array (name : string) (o : value) (k method : string)
  : M (list value) :=
  a <- get o k ;;
  match a with
  | VArr l => ret l
  | VUndefined | VNull => throw (TypeError_read method a)
  | _ => throw (TypeError_not_function (name ++ "." ++ k ++ "." ++ method)%string)
  end.

Fixpoint Array_map {A} (f : value -> M A) (l : list value) : M (list A) :=
  match l with
  | [] => ret []
  | x :: r => y <- f x ;; ys <- Array_map f r ;; ret (y :: ys)
  end.

Fixpoint Array_filter (p : value -> M bool) (l : list value) : M (list value) :=
  match l with
  | [] => ret []
  | x :: r =>
      b <- p x ;; ys <- Array_filter p r ;;
      ret (if b then x :: ys else ys)
  end.

(** [find] stops at the first element that satisfies the predicate and
    yields [undefined] when there is none. *)
Fixpoint Array_find (p : value -> M bool) (l : list value) : M value :=
  match l with
  | [] => ret VUndefined
  | x :: r => b <- p x ;; if b then ret x else Array_find p r
  end.

(** [Array.prototype.sort(comparefn)] as a stable insertion sort:
    [x] stays in front of [y] unless [comparefn(x, y) > 0]; a [NaN] result
    counts as zero.  Whenever [comparefn] is a consistent comparator this is
    the order ECMAScript prescribes (sorted, and stable); when it is not,
    ECMAScript leaves the order to the engine, and this is one such order. *)
Definition sort_after (c : number) : bool := num_lt (num_of_Z 0) c.

Fixpoint sort_insert {A} (cmp : A -> A -> number) (x : A) (l : list A)
  : list A :=
  match l with
  | [] => [x]
  | y :: r => if sort_after (cmp x y) then y :: sort_insert cmp x r
              else x :: l
  end.

Definition Array_sort {A} (cmp : A -> A -> number) (l : list A) : list A :=
  fold_right (sort_insert cmp) [] l.

Definition file_named (d : disk) (filename : string) : option file :=
  if String.eqb filename "books.json" then Some (books_json d)
  else if String.eqb filename "reviews.json" then Some (reviews_json d)
  else None.

Definition ENOENT (filename : string) : exn :=
  Error ("ENOENT: no such file or directory, open '" ++ filename ++ "'")%string.

Definition readJsonFile (filename : string) : M value :=
  fun d =>
    match file_named d filename with
    | Some f =>
        match contents f with
        | inl msg => (inl (Error msg), d)
        | inr v => (inr v, d)
        end
    | None => (inl (ENOENT filename), d)
    end.

Definition store (d : disk) (filename : string) (v : value) : disk :=
  if String.eqb filename "books.json" then
    {| books_json := {| contents := inr v;
                        write_error := write_error (books_json d) |};
       reviews_json := reviews_json d |}
  else if String.eqb filename "reviews.json" then
    {| books_json := books_json d;
       reviews_json := {| contents := inr v;
                          write_error := write_error (reviews_json d) |} |}
  else d.

(** What a failed write leaves of a file. *)
Definition spoiled (f : file) (w : write_failure) : file :=
  {| contents := match leaves w with
                 | Some c => c
                 | None => contents f
                 end;
     write_error := write_error f |}.

Definition spoil (d : disk) (filename : string) (w : write_failure) : disk :=
  if String.eqb filename "books.json" then
    {| books_json := spoiled (books_json d) w;
       reviews_json := reviews_json d |}
  else if String.eqb filename "reviews.json" then
    {| books_json := books_json d;
       reviews_json := spoiled (reviews_json d) w |}
  else d.

Definition writeJsonFile (filename : string) (data : value) : M unit :=
  fun d =>
    match file_named d filename with
    | Some f =>
        match write_error f with
        | Some w => (inl (Error (thrown w)), spoil d filename w)
        | None => (inr tt, store d filename (json_clone data))
        end
    | None => (inl (ENOENT filename), d)
    end.

(* ------------------------------------------------------------------ *)
(** ** Requests and responses *)

(** What a handler reads of an Express request: the headers (Node gives
    their names in lower case), [req.query], [req.params] and [req.body] as
    [express.json()] left it (a request whose body that middleware refuses
    reaches no route). *)
Record request : Type := {
  headers : list (string * string);
  query : list (string * value);
  params : list (string * string);
  body : value
}.

(** What a handler reads of its surroundings when it creates a record:
    [new Date().toISOString()] and [crypto.randomUUID()]. *)
Record env : Type := {
  now_ISO : string;
  randomUUID : string
}.

(** [res.status(status).json(body)] *)
Record response : Type := {
  status : Z;
  body_sent : value
}.

Definition handler : Type := disk -> response * disk.

Definition lower (c : ascii) : ascii :=
  let n := code c in
  if (65 <=? n) && (n <=? 90) then ascii_of_N (Z.to_N (n + 32)) else c.

Definition toLowerCase (s : string) : string := of_chars (map lower (chars s)).

Fixpoint assoc (k : string) (l : list (string * string)) : option string :=
  match l with
  | [] => None
  | (k', v) :: r => if String.eqb k k' then Some v else assoc k r
  end.

(** [req.get(name)] *)
Definition req_get (req : request) (name : string) : value :=
  match assoc (toLowerCase name) (headers req) with
  | Some v => VStr v
  | None => VUndefined
  end.

(** [req.params.name] *)
Definition req_param (req : request) (name : string) : value :=
  match assoc name (params req) with
  | Some v => VStr v
  | None => VUndefined
  end.

(** [req.query.name] *)
Definition req_query (req : request) (name : string) : value :=
  prop (VObj (query req)) name.

Definition json (st : Z) (b : list (string * value)) : response :=
  {| status := st; body_sent := VObj b |}.

(** [try { ... } catch (error) { res.status(500).json(...) }] *)
Definition failed (error : string) (e : exn) : response :=
  json 500 [("success", VBool false);
            ("error", VStr error);
            ("message", VStr (message_of e))].

Definition try_catch (m : M response) (error : string) : handler :=
  fun d => match m d with
           | (inr r, d') => (r, d')
           | (inl e, d') => (failed error e, d')
           end.

(** [arr.includes(v)] on an array of strings *)
Definition includes (l : list string) (v : value) : bool :=
  existsb (fun k => strict_eq (VStr k) v) l.

(** The part of a string before its first ["T"]: [s.split("T")[0]]. *)
Fixpoint split_T_0 (s : string) : string :=
  match s with
  | EmptyString => EmptyString
  | String c r => if Ascii.eqb c "T"%char then EmptyString
                  else String c (split_T_0 r)
  end.

(* ------------------------------------------------------------------ *)
(** ** Dates *)

(** [ToIntegerOrInfinity] of a finite number: truncation towards zero. *)
Definition truncate (m e : Z) : Z :=
  if 0 <=? e then m * 10 ^ e else Z.quot m (10 ^ (- e)).

Definition TimeClip (x : number) : number :=
  match binary64 x with
  | Fin m e =>
      if num_lt (Fin 864 13) (Fin (Z.abs m) e) then NaN
      else num_of_Z (truncate m e)
  | _ => NaN
  end.

Section Dates.

(** [Date.parse]: the time value of a date string, [NaN] when the engine
    does not recognise it. *)
Variable Date_parse : string -> number.

(** The time value of [new Date(v)].  A [Date] is only ever compared and
    asked for [getTime()], so it is represented by its time value. *)
Definition new_Date (v : value) : number :=
  match v with
  | VStr s => Date_parse s
  | VArr _ | VObj _ => Date_parse (ToString v)
  | _ => TimeClip (ToNumber v)
  end.

End Dates.

(* ------------------------------------------------------------------ *)
(** ** The middleware and the route handlers of [server.js] *)

Definition VALID_API_KEYS : list string := ["amana-secret-key-12345"].

Definition unauthorized : response :=
  json 401 [("success", VBool false);
            ("error", VStr "Unauthorized");
            ("message", VStr "A valid X-API-Key header is required.")].

Definition authenticateKey (req : request) (next : handler) : handler :=
  let apiKey := req_get req "X-API-Key" in
  if truthy apiKey && includes VALID_API_KEYS apiKey then next
  else fun d => (unauthorized, d).

(** [GET /] *)
Definition get_root (req : request) : handler :=
  fun d =>
    ({| status := 200;
        body_sent :=
          VObj [("message", VStr "Welcome to Amana Bookstore API");
                ("status", VStr "Server is running successfully");
                ("endpoints",
                 VObj [("books", VStr "/api/books");
                       ("featuredBooks", VStr "/api/books/featured");
                       ("booksByDateRange",
                        VStr "/api/books/date-range?start=YYYY-MM-DD&end=YYYY-MM-DD");
                       ("singleBook", VStr "/api/books/:id");
                       ("reviewsForBook", VStr "/api/reviews/book/:bookId")])] |},
     d).

(** [GET /api/books] *)
Definition get_books (req : request) : handler :=
  try_catch
    (booksData <- readJsonFile "books.json" ;;
     books <- get booksData "books" ;;
     count <- get books "length" ;;
     ret (json 200
            [("success", VBool true);
             ("count", count);
             ("data", books)]))
    "Failed to retrieve books".

(** [GET /api/books/featured] *)
Definition get_books_featured (req : request) : handler :=
  try_catch
    (booksData <- readJsonFile "books.json" ;;
     books <- get_array "booksData" booksData "books" "filter" ;;
     featuredBooks <- Array_filter
                        (fun book => featured <- get book "featured" ;;
                                     ret (strict_eq featured (VBool true)))
                        books ;;
     ret (json 200
            [("success", VBool true);
             ("count", VNum (num_of_nat (List.length featuredBooks)));
             ("data", VArr featuredBooks)]))
    "Failed to retrieve featured books".

Section DateRange.

Variable Date_parse : string -> number.

(** The callback of [booksData.books.filter] in the date-range route. *)
Definition in_date_range (startDate endDate : number) (book : value)
  : M bool :=
  datePublished <- get book "datePublished" ;;
  let bookDate := new_Date Date_parse datePublished in
  ret (num_ge bookDate startDate && num_le bookDate endDate).

(** [GET /api/books/date-range] *)
Definition get_books_date_range (req : request) : handler :=
  try_catch
    (let start := req_query req "start" in
     let end_ := req_query req "end" in
     if negb (truthy start) || negb (truthy end_) then
       ret (json 400
              [("success", VBool false);
               ("error", VStr "Missing required parameters");
               ("message", VStr "Please provide both start and end dates in format: YYYY-MM-DD")])
     else
       let startDate := new_Date Date_parse start in
       let endDate := new_Date Date_parse end_ in
       if isNaN startDate || isNaN endDate then
         ret (json 400
                [("success", VBool false);
                 ("error", VStr "Invalid date format");
                 ("message", VStr "Please use YYYY-MM-DD format for dates")])
       else if num_gt startDate endDate then
         ret (json 400
                [("success", VBool false);
                 ("error", VStr "Invalid date range");
                 ("message", VStr "Start date must be before or equal to end date")])
       else
         booksData <- readJsonFile "books.json" ;;
         books <- get_array "booksData" booksData "books" "filter" ;;
         filteredBooks <- Array_filter (in_date_range startDate endDate) books ;;
         ret (json 200
                [("success", VBool true);
                 ("count", VNum (num_of_nat (List.length filteredBooks)));
                 ("dateRange", VObj [("start", start); ("end", end_)]);
                 ("data", VArr filteredBooks)]))
    "Failed to retrieve books by date range".

End DateRange.

(** The callback of [booksData.books.map] in the top-rated route:
    [{ ...book, score: book.rating * book.reviewCount }]. *)
Definition with_score (book : value) : M value :=
  let copy := spread [] book in
  rating <- get book "rating" ;;
  reviewCount <- get book "reviewCount" ;;
  ret (VObj (set_prop copy "score"
               (VNum (num_mul (ToNumber rating) (ToNumber reviewCount))))).

(** [(a, b) => b.score - a.score]; [a] and [b] are objects that
    [with_score] built, so the reads cannot throw. *)
Definition by_score_desc (a b : value) : number :=
  num_sub (ToNumber (prop b "score")) (ToNumber (prop a "score")).

(** [GET /api/books/top-rated] *)
Definition get_books_top_rated (req : request) : handler :=
  try_catch
    (booksData <- readJsonFile "books.json" ;;
     books <- get_array "booksData" booksData "books" "map" ;;
     scored <- Array_map with_score books ;;
     let topRatedBooks := firstn 10 (Array_sort by_score_desc scored) in
     ret (json 200
            [("success", VBool true);
             ("count", VNum (num_of_nat (List.length topRatedBooks)));
             ("data", VArr topRatedBooks)]))
    "Failed to retrieve top rated books".

(** [GET /api/books/:id] *)
Definition get_book_by_id (req : request) : handler :=
  try_catch
    (let bookId := req_param req "id" in
     booksData <- readJsonFile "books.json" ;;
     books <- get_array "booksData" booksData "books" "find" ;;
     book <- Array_find (fun book => id <- get book "id" ;;
                                     ret (strict_eq id bookId)) books ;;
     if negb (truthy book) then
       ret (json 404
              [("success", VBool false);
               ("error", VStr "Book not found");
               ("message", VStr ("No book found with ID: " ++ ToString bookId))])
     else
       ret (json 200 [("success", VBool true); ("data", book)]))
    "Failed to retrieve book".

(** [GET /api/reviews/book/:bookId] *)
Definition get_reviews_by_book (req : request) : handler :=
  try_catch
    (let bookId := req_param req "bookId" in
     reviewsData <- readJsonFile "reviews.json" ;;
     reviews <- get_array "reviewsData" reviewsData "reviews" "filter" ;;
     bookReviews <- Array_filter (fun review => id <- get review "bookId" ;;
                                                ret (strict_eq id bookId))
                                 reviews ;;
     if (List.length bookReviews =? 0)%nat then
       ret (json 200
              [("success", VBool true);
               ("message", VStr ("No reviews found for book with ID: "
                                   ++ ToString bookId));
               ("count", VNum (num_of_Z 0));
               ("data", VArr [])])
     else
       ret (json 200
              [("success", VBool true);
               ("count", VNum (num_of_nat (List.length bookReviews)));
               ("data", VArr bookReviews)]))
    "Failed to retrieve reviews for the book".

(** [x !== undefined ? x : dflt] *)
Definition defined_or (x dflt : value) : value :=
  if strict_eq x VUndefined then dflt else x.

(** [data.k.push(x)] followed by the whole of [data]: the array under [k]
    is extended in place. *)
Definition pushed (data : value) (k : string) (l : list value) (x : value)
  : value :=
  match data with
  | VObj ps => VObj (set_prop ps k (VArr (l ++ [x])))
  | _ => data
  end.

(** The object literal of [const bookToAdd = { id: ..., ...newBook,
    rating: ..., ... }], given the [id] computed from the collection. *)
Definition bookToAdd (e : env) (newBook : value) (id : string) : value :=
  let o := spread [("id", VStr id)] newBook in
  let o := set_prop o "rating"
             (or_else (prop newBook "rating") (VNum (num_of_Z 0))) in
  let o := set_prop o "reviewCount"
             (or_else (prop newBook "reviewCount") (VNum (num_of_Z 0))) in
  let o := set_prop o "inStock"
             (defined_or (prop newBook "inStock") (VBool true)) in
  let o := set_prop o "featured"
             (defined_or (prop newBook "featured") (VBool false)) in
  let o := set_prop o "datePublished"
             (or_else (prop newBook "datePublished")
                      (VStr (split_T_0 (now_ISO e)))) in
  VObj o.

(** [POST /api/books] *)
Definition post_books (e : env) (req : request) : handler :=
  authenticateKey req
    (try_catch
       (let newBook := body req in
        title <- get newBook "title" ;;
        author <- get newBook "author" ;;
        price <- get newBook "price" ;;
        if negb (truthy title) || negb (truthy author) || negb (truthy price)
        then
          ret (json 400
                 [("success", VBool false);
                  ("error", VStr "Missing required fields");
                  ("message", VStr "Please provide title, author, and price for the new book.")])
        else
          booksData <- readJsonFile "books.json" ;;
          books <- get_array "booksData" booksData "books" "map" ;;
          ids <- Array_map (fun b => id <- get b "id" ;; ret (parseInt id))
                           books ;;
          let id := number_toString (num_add (Math_max ids) (num_of_Z 1)) in
          let book := bookToAdd e newBook id in
          writeJsonFile "books.json" (pushed booksData "books" books book) ;;;
          ret (json 201
                 [("success", VBool true);
                  ("message", VStr "Book added successfully!");
                  ("data", book)]))
       "Failed to add new book").

(** The object literal of [const reviewToAdd = { id: ..., ...newReview,
    timestamp: ..., verified: ... }]. *)
Definition reviewToAdd (e : env) (newReview : value) : value :=
  let o := spread [("id", VStr ("review-" ++ randomUUID e))] newReview in
  let o := set_prop o "timestamp" (VStr (now_ISO e)) in
  let o := set_prop o "verified"
             (defined_or (prop newReview "verified") (VBool false)) in
  VObj o.

(** [POST /api/reviews] *)
Definition post_reviews (e : env) (req : request) : handler :=
  authenticateKey req
    (try_catch
       (let newReview := body req in
        bookId <- get newReview "bookId" ;;
        author <- get newReview "author" ;;
        rating <- get newReview "rating" ;;
        comment <- get newReview "comment" ;;
        if negb (truthy bookId) || negb (truthy author)
           || negb (truthy rating) || negb (truthy comment)
        then
          ret (json 400
                 [("success", VBool false);
                  ("error", VStr "Missing required fields");
                  ("message", VStr "Please provide bookId, author, rating, and comment.")])
        else
          reviewsData <- readJsonFile "reviews.json" ;;
          let review := reviewToAdd e newReview in
          reviews <- get_array "reviewsData" reviewsData "reviews" "push" ;;
          writeJsonFile "reviews.json"
            (pushed reviewsData "reviews" reviews review) ;;;
          ret (json 201
                 [("success", VBool true);
                  ("message", VStr "Review added successfully!");
                  ("data", review)]))
       "Failed to add review").

(* ------------------------------------------------------------------ *)
(** ** A [Date.parse] for concrete runs

    [Date_parse_ISO] reads the date-only form [YYYY-MM-DD] (midnight UTC),
    with a month from 01 to 12 and a day from 01 to 31 as V8 takes them (a
    day past the end of its month runs into the next month), and rejects
    everything else; an engine reads more (a year alone, a year and a
    month, date-times, other formats).  It instantiates the parameter of
    the date-range handler where a statement is run on a concrete request
    with dates of that form; no theorem depends on it. *)

Definition days_from_civil (y m d : Z) : Z :=
  let y' := if m <=? 2 then y - 1 else y in
  let era := y' / 400 in
  let yoe := y' - era * 400 in
  let mp := (m + 9) mod 12 in
  let doy := (153 * mp + 2) / 5 + d - 1 in
  let doe := yoe * 365 + yoe / 4 - yoe / 100 + doy in
  era * 146097 + doe - 719468.

Definition Date_parse_ISO (s : string) : number :=
  match chars s with
  | [y1; y2; y3; y4; "-"%char; m1; m2; "-"%char; d1; d2] =>
      if forallb is_digit [y1; y2; y3; y4; m1; m2; d1; d2] then
        let y := digits_value [y1; y2; y3; y4] in
        let m := digits_value [m1; m2] in
        let d := digits_value [d1; d2] in
        if (1 <=? m) && (m <=? 12) && (1 <=? d) && (d <=? 31)
        then num_of_Z (days_from_civil y m d * 86400000)
        else NaN
      else NaN
  | _ => NaN
  end.

(* ------------------------------------------------------------------ *)
(** ** What the statements below speak about *)

Definition has_key (k : string) (ps : list (string * value)) : bool :=
  existsb (fun kv => String.eqb k (fst kv)) ps.

Fixpoint nodup_keys (ps : list (string * value)) : bool :=
  match ps with
  | [] => true
  | (k, _) :: r => negb (has_key k r) && nodup_keys r
  end.

(** A record of a collection: a JSON object (its property names are
    pairwise distinct, as in every object that [JSON.parse] builds). *)
Definition is_record (v : value) : bool :=
  match v with
  | VObj ps => nodup_keys ps
  | _ => false
  end.

(** The array a file holds under the property [k] of its top-level object,
    when the file can be read and has that shape. *)
Definition collection (f : file) (k : string) : option (list value) :=
  match contents f with
  | inr (VObj ps) =>
      match lookup k ps with
      | Some (VArr l) => Some l
      | _ => None
      end
  | _ => None
  end.

(** The [X-API-Key] header is absent or is not the shared secret. *)
Definition bad_api_key (req : request) : Prop :=
  match assoc "x-api-key" (headers req) with
  | None => True
  | Some k => k <> "amana-secret-key-12345"
  end.

Definition good_api_key (req : request) : Prop :=
  assoc "x-api-key" (headers req) = Some "amana-secret-key-12345".

(** A field of a request body that is there. *)
Definition present (k : string) (b : value) : Prop :=
  exists ps v, b = VObj ps /\ lookup k ps = Some v.







(** The array under [data] of a response body, if there is one. *)
Definition data_of (r : response) : option (list value) :=
  match prop (body_sent r) "data" with
  | VArr l => Some l
  | _ => None
  end.

Definition has_id (id : string) (book : value) : bool :=
  strict_eq (prop book "id") (VStr id).

Definition has_bookId (id : string) (review : value) : bool :=
  strict_eq (prop review "bookId") (VStr id).





(** The string form of [max(existing numeric ids) + 1]. *)
Definition next_id (bs : list value) : string :=
  number_toString
    (num_add (Math_max (map (fun b => parseInt (prop b "id")) bs)) (num_of_Z 1)).

(* ------------------------------------------------------------------ *)
(** ** The server as a whole *)

(** The requests that the server answers, route by route, with what each
    reads of its surroundings. *)
Inductive call : Type :=
| GetRoot (req : request)
| GetBooks (req : request)
| GetBooksFeatured (req : request)
| GetBooksDateRange (req : request)
| GetBooksTopRated (req : request)
| GetBookById (req : request)
| GetReviewsByBook (req : request)
| PostBooks (e : env) (req : request)
| PostReviews (e : env) (req : request).

Definition serve (Date_parse : string -> number) (c : call) : handler :=
  match c with
  | GetRoot req => get_root req
  | GetBooks req => get_books req
  | GetBooksFeatured req => get_books_featured req
  | GetBooksDateRange req => get_books_date_range Date_parse req
  | GetBooksTopRated req => get_books_top_rated req
  | GetBookById req => get_book_by_id req
  | GetReviewsByBook req => get_reviews_by_book req
  | PostBooks e req => post_books e req
  | PostReviews e req => post_reviews e req
  end.

(** The files after a sequence of requests that are served one after the
    other: each is answered before the next one is received. *)
Definition after (Date_parse : string -> number) (cs : list call) (d : disk)
  : disk :=
  fold_left (fun d c => snd (serve Date_parse c d)) cs d.





(** A computation that leaves the files as they are. *)
Definition readonly {A} (m : M A) : Prop := forall d, snd (m d) = d.

(* ------------------------------------------------------------------ *)
(** ** Sample data *)

Definition a_book (id title : string) (rating : number) (reviewCount : Z)
           (datePublished : string) : value :=
  VObj [("id", VStr id); ("title", VStr title); ("author", VStr "N. Author");
        ("price", VNum (Fin 1999 (-2)));
        ("rating", VNum rating); ("reviewCount", VNum (num_of_Z reviewCount));
        ("inStock", VBool true); ("featured", VBool false);
        ("datePublished", VStr datePublished)].

Definition a_review (id bookId : string) (rating : Z) : value :=
  VObj [("id", VStr id); ("bookId", VStr bookId); ("author", VStr "R. Reader");
        ("rating", VNum (num_of_Z rating)); ("comment", VStr "Worth reading.");
        ("timestamp", VStr "2024-01-05T10:00:00.000Z"); ("verified", VBool true)].

Definition sample_books : list value :=
  [a_book "1" "Algebra" (Fin 45 (-1)) 120 "2020-03-15";
   a_book "2" "Botany" (Fin 48 (-1)) 45 "2019-11-02";
   a_book "3" "Calculus" (Fin 39 (-1)) 300 "2021-06-30"].

Definition sample_reviews : list value :=
  [a_review "review-1" "1" 5; a_review "review-2" "1" 4;
   a_review "review-3" "3" 3].

Definition a_file (k : string) (l : list value) : file :=
  {| contents := inr (VObj [(k, VArr l)]); write_error := None |}.

Definition sample_disk : disk :=
  {| books_json := a_file "books" sample_books;
     reviews_json := a_file "reviews" sample_reviews |}.

Definition sample_env : env :=
  {| now_ISO := "2024-05-17T08:30:00.000Z";
     randomUUID := "123e4567-e89b-42d3-a456-426614174000" |}.

Definition GET (query : list (string * value)) (params : list (string * string))
  : request :=
  {| headers := []; query := query; params := params; body := VObj [] |}.

Definition POST (key : option string) (body : list (string * value))
  : request :=
  {| headers := match key with
                | Some k => [("x-api-key", k)]
                | None => []
                end;
     query := []; params := []; body := VObj body |}.

Definition the_key : option string := Some "amana-secret-key-12345".

Definition new_book_body : list (string * value) :=
  [("title", VStr "Dynamics"); ("author", VStr "N. Author");
   ("price", VNum (Fin 2450 (-2)))].

Definition new_review_body : list (string * value) :=
  [("bookId", VStr "no-such-book"); ("author", VStr "R. Reader");
   ("rating", VNum (num_of_Z 4)); ("comment", VStr "Hard to find.")].

(** A free book and a review that rates zero: every required field is
    there. *)
Definition free_book_body : list (string * value) :=
  [("title", VStr "Pamphlet"); ("author", VStr "N. Author");
   ("price", VNum (num_of_Z 0))].

Definition zero_review_body : list (string * value) :=
  [("bookId", VStr "1"); ("author", VStr "R. Reader");
   ("rating", VNum (num_of_Z 0)); ("comment", VStr "Not for me.")].





Definition date_query (s e : string) : list (string * value) :=
  [("start", VStr s); ("end", VStr e)].

Definition empty_disk : disk :=
  {| books_json := a_file "books" []; reviews_json := a_file "reviews" [] |}.

(** The ids of the books that a file holds. *)
Definition ids_in (d : disk) : list value :=
  match collection (books_json d) "books" with
  | Some l => map (fun b => prop b "id") l
  | None => []
  end.

(* ------------------------------------------------------------------ *)
(** ** Further vocabulary and sample data *)

Definition is_featured (book : value) : bool :=
  strict_eq (prop book "featured") (VBool true).

(** A collection in which a book is featured, one has the string ["true"]
    for its flag, and one has no flag. *)
Definition flagged_books : list value :=
  [VObj [("id", VStr "1"); ("featured", VBool true)];
   VObj [("id", VStr "2"); ("featured", VStr "true")];
   VObj [("id", VStr "3")];
   VObj [("id", VStr "4"); ("featured", VNum (num_of_Z 1))]].

Definition flagged_disk : disk :=
  {| books_json := a_file "books" flagged_books;
     reviews_json := a_file "reviews" sample_reviews |}.

(** A books file that cannot be read. *)
Definition unreadable_disk : disk :=
  {| books_json := {| contents := inl "Unexpected end of JSON input";
                      write_error := None |};
     reviews_json := a_file "reviews" sample_reviews |}.






(** Reviews that cannot be read. *)
Definition unreadable_reviews_disk : disk :=
  {| books_json := a_file "books" sample_books;
     reviews_json := {| contents := inl "Unexpected end of JSON input";
                        write_error := None |} |}.

(** A device that is full: the file is opened, and so truncated, and the
    write fails. *)
Definition ENOSPC : write_failure :=
  {| thrown := "ENOSPC: no space left on device, write";
     leaves := Some (inl "Unexpected end of JSON input") |}.

Definition full_disk : disk :=
  {| books_json := {| contents := contents (books_json sample_disk);
                      write_error := Some ENOSPC |};
     reviews_json := {| contents := contents (reviews_json sample_disk);
                        write_error := Some ENOSPC |} |}.

(** A value that a JSON text denotes: no [undefined] in it, and no number
    that is not finite. *)
Fixpoint is_json (v : value) : bool :=
  match v with
  | VUndefined => false
  | VNum x =>
      match binary64 x with
      | Fin _ _ => true
      | _ => false
      end
  | VArr l => forallb is_json l
  | VObj ps => forallb (fun kv => is_json (snd kv)) ps
  | _ => true
  end.

(** The properties of an object are all values of JSON. *)
Definition json_fields (ps : list (string * value)) : bool :=
  forallb (fun kv => is_json (snd kv)) ps.




(** Books whose scores are not the decimal products of their ratings and
    review counts: [0.1 * 3] is [0.30000000000000004] and [1.1 * 3] is
    [3.3000000000000003]. *)
Definition inexact_books : list value :=
  [a_book "1" "Primer" (Fin 3 (-1)) 1 "2020-01-01";
   a_book "2" "Reader" (Fin 1 (-1)) 3 "2020-01-01";
   a_book "3" "Manual" (Fin 11 (-1)) 3 "2020-01-01";
   a_book "4" "Digest" (Fin 33 (-1)) 1 "2020-01-01"].

(** Ten books that score [0.3 * 1], and an eleventh that scores
    [0.1 * 3]. *)
Definition eleven_books : list value :=
  map (fun n => a_book (number_toString (num_of_Z n)) "Volume"
                       (Fin 3 (-1)) 1 "2020-01-01")
      [1; 2; 3; 4; 5; 6; 7; 8; 9; 10]
  ++ [a_book "11" "Volume" (Fin 1 (-1)) 3 "2020-01-01"].

Definition books_disk (bs : list value) : disk :=
  {| books_json := a_file "books" bs;
     reviews_json := a_file "reviews" [] |}.

(** The file holds, under [k], the collection [l] of records of JSON, and
    it takes writes. *)
Definition holds_json (f : file) (k : string) (l : list value) : Prop :=
  collection f k = Some l
  /\ forallb is_record l = true
  /\ forallb is_json l = true
  /\ write_error f = None.

(** The body of a request that creates a record is a value of JSON, as
    [express.json()] leaves it. *)
Definition json_body (c : call) : Prop :=
  match c with
  | PostBooks _ req | PostReviews _ req => is_json (body req) = true
  | _ => True
  end.

(** The requests that only read. *)
Definition is_get (c : call) : bool :=
  match c with
  | PostBooks _ _ | PostReviews _ _ => false
  | _ => true
  end.

(** A review that brings its own [timestamp] and [verified]. *)
Definition verified_review_body : list (string * value) :=
  [("bookId", VStr "1"); ("author", VStr "R. Reader");
   ("rating", VNum (num_of_Z 5)); ("comment", VStr "Read it twice.");
   ("timestamp", VStr "1999-12-31T23:59:59.000Z"); ("verified", VBool true)].

(* ------------------------------------------------------------------ *)
(** ** The routes of the application *)

Module Router.

Inductive method : Type := Get | Post.

Definition method_eqb (m1 m2 : method) : bool :=
  match m1, m2 with
  | Get, Get | Post, Post => true
  | _, _ => false
  end.

(** A route as [app.get] and [app.post] register it: the method, the
    path as it is written, and the handlers (with [authenticateKey] in
    front of them where the route is protected). *)
Record route : Type := {
  route_method : method;
  route_path : string;
  route_handler : env -> request -> handler
}.

(** The request as the handler of a route sees it: [req.params] holds what
    the path of the route has bound. *)
Definition with_params (req : request) (ps : list (string * string))
  : request :=
  {| headers := headers req; query := query req; params := ps;
     body := body req |}.

(** [GET /] of the earlier copy of the server. *)
Definition get_root_earlier (req : request) : handler :=
  fun d =>
    ({| status := 200;
        body_sent :=
          VObj [("message", VStr "Welcome to Amana Bookstore API");
                ("status", VStr "Server is running successfully");
                ("endpoints",
                 VObj [("books", VStr "/api/books");
                       ("booksByDateRange",
                        VStr "/api/books/date-range?start=YYYY-MM-DD&end=YYYY-MM-DD");
                       ("singleBook", VStr "/api/books/:id")])] |},
     d).

Section Table.

Variable Date_parse : string -> number.

(** The routes of [server.js], in the order in which they are
    registered. *)
Definition app : list route :=
  [ {| route_method := Get; route_path := "/";
       route_handler := fun _ => get_root |};
    {| route_method := Get; route_path := "/api/books";
       route_handler := fun _ => get_books |};
    {| route_method := Get; route_path := "/api/books/date-range";
       route_handler := fun _ => get_books_date_range Date_parse |};
    {| route_method := Get; route_path := "/api/books/featured";
       route_handler := fun _ => get_books_featured |};
    {| route_method := Get; route_path := "/api/books/top-rated";
       route_handler := fun _ => get_books_top_rated |};
    {| route_method := Get; route_path := "/api/books/:id";
       route_handler := fun _ => get_book_by_id |};
    {| route_method := Get; route_path := "/api/reviews/book/:bookId";
       route_handler := fun _ => get_reviews_by_book |};
    {| route_method := Post; route_path := "/api/books";
       route_handler := post_books |};
    {| route_method := Post; route_path := "/api/reviews";
       route_handler := post_reviews |} ].

(** The routes of the earlier copy. *)
Definition app_earlier : list route :=
  [ {| route_method := Get; route_path := "/";
       route_handler := fun _ => get_root_earlier |};
    {| route_method := Get; route_path := "/api/books";
       route_handler := fun _ => get_books |};
    {| route_method := Get; route_path := "/api/books/date-range";
       route_handler := fun _ => get_books_date_range Date_parse |};
    {| route_method := Get; route_path := "/api/books/:id";
       route_handler := fun _ => get_book_by_id |} ].

(** How the router matches the path of a route against the path of a
    request, and what it binds, is Express's: it is a parameter here. *)
Variable path_match : string -> string -> option (list (string * string)).

(** The router: the first route, in the order of registration, of the
    method of the request and whose path matches, answers; the handlers
    of this application never pass a request on.  [None] where no route
    matches (Express then answers 404 by itself). *)
Fixpoint dispatch (routes : list route) (m : method) (path : string)
         (e : env) (req : request) : option handler :=
  match routes with
  | [] => None
  | r :: rest =>
      if method_eqb m (route_method r) then
        match path_match (route_path r) path with
        | Some ps => Some (route_handler r e (with_params req ps))
        | None => dispatch rest m path e req
        end
      else dispatch rest m path e req
  end.

End Table.

(** A matcher for the examples: it compares the paths segment by segment,
    a segment [:name] of the route binding a segment of the request that
    is not empty. *)
Fixpoint segments (s : string) : list string :=
  match s with
  | EmptyString => [EmptyString]
  | String c r =>
      if Ascii.eqb c "/" then EmptyString :: segments r
      else match segments r with
           | seg :: segs => String c seg :: segs
           | [] => [String c EmptyString]
           end
  end.

Fixpoint match_segments (route_segs path_segs : list string)
  : option (list (string * string)) :=
  match route_segs, path_segs with
  | [], [] => Some []
  | r :: rs, p :: ps =>
      match r with
      | String ":" name =>
          if String.eqb p "" then None
          else option_map (cons (name, p)) (match_segments rs ps)
      | _ => if String.eqb r p then match_segments rs ps else None
      end
  | _, _ => None
  end.

Definition match_by_segments (route_path path : string)
  : option (list (string * string)) :=
  match_segments (segments route_path) (segments path).

End Router.

(* ------------------------------------------------------------------ *)
(** * Properties *)

(** ** The run time on examples *)

Example parseInt_examples :
  map parseInt_string ["12"; " 42abc"; "-7"; "0x1A"; "abc"; ""; "-Infinity"; "1e3"]
  = [num_of_Z 12; num_of_Z 42; num_of_Z (-7); num_of_Z 26; NaN; NaN; NaN; num_of_Z 1].
Proof. vm_compute. reflexivity. Qed.

Example toString_examples :
  map number_toString
      [num_of_Z 13; num_of_Z (-5); Fin 48 (-1); Fin 5 (-7); Fin 1 21; Fin 15 20; Fin 15 19;
       Fin 1200 (-2); Fin 25 (-4); NaN; Inf true]
  = ["13"; "-5"; "4.8"; "5e-7"; "1e+21"; "1.5e+21"; "150000000000000000000";
     "12"; "0.0025"; "NaN"; "-Infinity"].
Proof. vm_compute. reflexivity. Qed.

Example StringToNumber_examples :
  map StringToNumber ["4.5"; " 12 "; ""; "N/A"; "1e3"; ".5"; "5."; "."; "0x10"; "-Infinity"; "1 2"]
  = [Fin 45 (-1); Fin 12 0; Fin 0 0; NaN; Fin 1 3; Fin 5 (-1); Fin 5 0; NaN;
     Fin 16 0; Inf true; NaN].
Proof. vm_compute. reflexivity. Qed.

Example Date_parse_ISO_examples :
  map Date_parse_ISO
      ["1970-01-01"; "2020-01-01"; "2020-12-31"; "2021-02-29"; "2021-03-01";
       "2021-13-01"; "soon"]
  = [num_of_Z 0; num_of_Z 1577836800000; num_of_Z 1609372800000;
     num_of_Z 1614556800000; num_of_Z 1614556800000; NaN; NaN].
Proof. reflexivity. Qed.

(** A decimal is read as the binary64 value nearest to it wherever it is
    consumed: [1e-400] is zero and [1e400] an infinity, which JSON does not
    hold. *)
Example decimals_read_as_binary64 :
  (truthy (VNum (Fin 1 (-400))), truthy (VNum (Fin 1 (-323))),
   is_json (VNum (Fin 1 400)), json_clone (VNum (Fin 1 400)),
   strict_eq (VNum (Fin 1 (-1)))
             (VNum (Fin 1000000000000000055511151231257827 (-34))),
   TimeClip (Fin 86400000000000004 (-1)))
  = (false, true, false, VNull, true, Fin 8640000000000000 0).
Proof. vm_compute. reflexivity. Qed.

(** Products, sums and differences are those of binary64, and a number
    prints as the shortest decimal that reads back as it. *)
Example binary64_examples :
  map number_toString
      [num_mul (Fin 11 (-1)) (num_of_Z 3); num_mul (Fin 33 (-1)) (num_of_Z 1);
       num_mul (Fin 1 (-1)) (num_of_Z 3); num_mul (Fin 3 (-1)) (num_of_Z 1);
       num_add (Fin 1 (-1)) (Fin 2 (-1)); num_sub (Fin 3 (-1)) (Fin 1 (-1));
       num_mul (Fin 48 (-1)) (num_of_Z 45); num_mul (Fin 1 308) (num_of_Z 10);
       num_mul (Fin 1 999) (num_of_Z 0);
       num_add (num_of_Z (2 ^ 53)) (num_of_Z 1); num_of_Z (2 ^ 60)]
  = ["3.3000000000000003"; "3.3"; "0.30000000000000004"; "0.3";
     "0.30000000000000004"; "0.19999999999999998"; "216"; "Infinity";
     "NaN"; "9007199254740992"; "1152921504606847000"].
Proof. vm_compute. reflexivity. Qed.

(** Beyond [2^53] an id is not read exactly, and the next id is not the
    one of integer arithmetic. *)
Example next_id_rounds :
  parseInt (VStr "9007199254740993") = num_of_Z 9007199254740992
  /\ next_id [VObj [("id", VStr "9007199254740993")]] = "9007199254740992".
Proof. split; vm_compute; reflexivity. Qed.

(** ** The order of the numbers *)

Lemma pow10_pos (k : Z) : 0 <= k -> 0 < 10 ^ k.
Proof. intros. apply Z.pow_pos_nonneg; lia. Qed.

Lemma mul_compare_pos (a b p : Z) : 0 < p -> (a * p ?= b * p) = (a ?= b).
Proof.
  intros Hp.
  destruct (Z.compare_spec a b); destruct (Z.compare_spec (a * p) (b * p));
    auto; nia.
Qed.

(** Comparing at any common exponent below both gives the same answer. *)
Lemma fin_compare_at (k m1 e1 m2 e2 : Z) :
  k <= e1 -> k <= e2 ->
  fin_compare m1 e1 m2 e2 = (m1 * 10 ^ (e1 - k) ?= m2 * 10 ^ (e2 - k)).
Proof.
  intros H1 H2. unfold fin_compare, align.
  set (e := Z.min e1 e2).
  assert (He : k <= e) by (unfold e; lia).
  replace (e1 - k) with ((e1 - e) + (e - k)) by lia.
  replace (e2 - k) with ((e2 - e) + (e - k)) by lia.
  rewrite !Z.pow_add_r by (unfold e; lia).
  rewrite !Z.mul_assoc.
  symmetry. apply mul_compare_pos. apply pow10_pos. lia.
Qed.

Lemma fin_compare_antisym (m1 e1 m2 e2 : Z) :
  fin_compare m2 e2 m1 e1 = CompOpp (fin_compare m1 e1 m2 e2).
Proof.
  rewrite (fin_compare_at (Z.min e1 e2) m2 e2 m1 e1) by lia.
  rewrite (fin_compare_at (Z.min e1 e2) m1 e1 m2 e2) by lia.
  apply Z.compare_antisym.
Qed.

Lemma num_le_not_NaN (x y : number) :
  num_le x y = true -> isNaN x = false /\ isNaN y = false.
Proof. destruct x, y; simpl; auto; discriminate. Qed.


Lemma num_le_not_gt (x y : number) : num_le x y = true -> num_gt x y = false.
Proof.
  unfold num_gt, num_le.
  destruct x as [|a|m1 e1], y as [|b|m2 e2]; simpl; try discriminate; auto.
  - destruct a, b; simpl; auto.
  - destruct a; simpl; auto; discriminate.
  - destruct b; simpl; auto; discriminate.
  - rewrite (fin_compare_antisym m1 e1 m2 e2).
    destruct (fin_compare m1 e1 m2 e2); simpl; auto; discriminate.
Qed.




(** ** Rounding to binary64 *)

Lemma scaled_eq (m e : Z) :
  scaled m e = if 0 <=? e then (Z.abs m * 10 ^ e * 2 ^ 1074, 1)
               else (Z.abs m * 2 ^ 1074, 10 ^ (- e)).
Proof. unfold scaled. rewrite !Z.shiftl_mul_pow2 by lia. reflexivity. Qed.

Lemma fits_eq (N : Z) :
  fits N = if N <? 2 ^ 53 then true else N mod 2 ^ (Z.log2 N - 52) =? 0.
Proof.
  unfold fits. destruct (Z.ltb_spec N (2 ^ 53)) as [|H]; [reflexivity|].
  assert (53 <= Z.log2 N) by (apply Z.log2_le_pow2; [assert (0 < 2 ^ 53) by reflexivity|]; lia).
  rewrite Z.land_ones by lia. reflexivity.
Qed.

Lemma log2_ltb (N b : Z) :
  0 <= N -> 0 < b -> (Z.log2 N <? b) = (N <? 2 ^ b).
Proof.
  intros HN Hb. destruct (Z.eq_dec N 0) as [->|Hne].
  - change (Z.log2 0) with 0.
    assert (0 < 2 ^ b) by (apply Z.pow_pos_nonneg; lia).
    destruct (Z.ltb_spec 0 b); destruct (Z.ltb_spec 0 (2 ^ b)); auto; lia.
  - pose proof (Z.log2_lt_pow2 N b ltac:(lia)) as [H1 H2].
    destruct (Z.ltb_spec (Z.log2 N) b); destruct (Z.ltb_spec N (2 ^ b));
      auto; lia.
Qed.

Lemma is_binary64_eq (m e : Z) :
  is_binary64 m e
  = let '(a, d) := scaled m e in
    if a mod d =? 0 then
      if a / d <? 2 ^ 2098 then fits (a / d) else false
    else false.
Proof.
  unfold is_binary64. rewrite scaled_eq.
  assert (P : 0 < 2 ^ 1074) by (apply Z.pow_pos_nonneg; lia).
  destruct (Z.leb_spec 0 e).
  - assert (0 < 10 ^ e) by (apply Z.pow_pos_nonneg; lia).
    rewrite log2_ltb; [reflexivity| |lia]. rewrite Z.div_1_r. nia.
  - assert (0 < 10 ^ (- e)) by (apply Z.pow_pos_nonneg; lia).
    rewrite log2_ltb; [reflexivity| |lia]. apply Z.div_pos; nia.
Qed.

Lemma shiftr_div (a d j : Z) :
  0 < d -> 0 <= j -> Z.shiftr a j / d = a / (d * 2 ^ j).
Proof.
  intros Hd Hj. rewrite Z.shiftr_div_pow2 by lia.
  assert (0 < 2 ^ j) by (apply Z.pow_pos_nonneg; lia).
  rewrite Z.div_div by lia. f_equal. ring.
Qed.

Lemma round_at_floor (a d j : Z) :
  0 < d -> 0 <= j ->
  a / (d * 2 ^ j) <= round_at a d j <= a / (d * 2 ^ j) + 1.
Proof.
  intros Hd Hj. unfold round_at. rewrite shiftr_div by assumption.
  destruct (2 * (Z.shiftl (Z.shiftr a j mod d) j + Z.land a (Z.ones j))
              ?= Z.shiftl d j);
    [destruct (Z.even (a / (d * 2 ^ j)))| |]; lia.
Qed.

Lemma overflow_eq (M x : Z) :
  0 <= M -> 0 <= x ->
  (0 <? M) && (1024 <=? Z.log2 M + x) = (2 ^ 1024 <=? M * 2 ^ x).
Proof.
  intros HM Hx.
  assert (P : 0 < 2 ^ 1024) by (apply Z.pow_pos_nonneg; lia).
  assert (Px : 0 < 2 ^ x) by (apply Z.pow_pos_nonneg; lia).
  destruct (Z.ltb_spec 0 M) as [Hpos|Hz]; cbn [andb].
  - replace (Z.log2 M + x) with (x + Z.log2 M) by lia.
    rewrite <- (Z.log2_mul_pow2 M x) by lia.
    pose proof (Z.log2_le_pow2 (M * 2 ^ x) 1024 ltac:(nia)) as [H1 H2].
    destruct (Z.leb_spec 1024 (Z.log2 (M * 2 ^ x)));
      destruct (Z.leb_spec (2 ^ 1024) (M * 2 ^ x)); auto; lia.
  - assert (M = 0) by lia. subst M. rewrite Z.mul_0_l.
    symmetry. apply Z.leb_gt. lia.
Qed.

Lemma of_units_eq (neg : bool) (M j : Z) :
  0 <= M -> 0 <= j ->
  of_units neg M j
  = if 1074 <=? j then
      if 2 ^ 1024 <=? M * 2 ^ (j - 1074) then Inf neg
      else Fin ((if neg then - M else M) * 2 ^ (j - 1074)) 0
    else
      let k := 1074 - j in
      let g := Z.min k (trailing_zeros M) in
      let M' := M / 2 ^ g in
      Fin ((if neg then - M' else M') * 5 ^ (k - g)) (g - k).
Proof.
  intros HM Hj. unfold of_units.
  destruct (Z.leb_spec 1074 j).
  - rewrite overflow_eq, Z.shiftl_mul_pow2 by lia. reflexivity.
  - cbv zeta. rewrite Z.shiftr_div_pow2; [reflexivity|].
    assert (0 <= trailing_zeros M); [|lia].
    destruct M; cbn [trailing_zeros]; try lia.
    induction p; cbn [twos]; lia.
Qed.

Lemma fits_units (M j : Z) :
  0 <= M <= 2 ^ 53 -> 0 <= j -> fits (M * 2 ^ j) = true.
Proof.
  intros HM Hj. rewrite fits_eq.
  destruct (Z.ltb_spec (M * 2 ^ j) (2 ^ 53)) as [|Hbig]; [reflexivity|].
  assert (Hp : 0 < 2 ^ j) by (apply Z.pow_pos_nonneg; lia).
  assert (M0 : 0 < M) by (assert (0 < 2 ^ 53) by reflexivity; nia).
  apply Z.eqb_eq.
  rewrite Z.log2_mul_pow2 by lia.
  destruct (Z.eq_dec M (2 ^ 53)) as [->|Hne].
  - rewrite Z.log2_pow2 by lia.
    replace (j + 53 - 52) with (j + 1) by lia.
    replace (2 ^ 53 * 2 ^ j) with (2 ^ 52 * 2 ^ (j + 1))
      by (rewrite (Z.pow_add_r 2 j 1) by lia; change (2 ^ 53) with (2 ^ 52 * 2);
          change (2 ^ 1) with 2; ring).
    apply Z.mod_mul. apply Z.pow_nonzero; lia.
  - assert (Hl : Z.log2 M < 53) by (apply Z.log2_lt_pow2; lia).
    assert (Hl0 : 0 <= Z.log2 M) by apply Z.log2_nonneg.
    assert (Hx : 53 <= j + Z.log2 M).
    { destruct (Z.le_gt_cases 53 (j + Z.log2 M)) as [|C]; [assumption|].
      exfalso.
      assert (M * 2 ^ j < 2 ^ 53); [|lia].
      assert (Z.log2 (M * 2 ^ j) < 53)
        by (rewrite Z.log2_mul_pow2 by lia; lia).
      apply Z.log2_lt_pow2; lia. }
    replace (M * 2 ^ j)
      with (M * 2 ^ (52 - Z.log2 M) * 2 ^ (j + Z.log2 M - 52)).
    + apply Z.mod_mul. apply Z.pow_nonzero; lia.
    + rewrite <- Z.mul_assoc, <- Z.pow_add_r by lia. f_equal. f_equal. lia.
Qed.

Lemma nearest_bounds (a d : Z) :
  0 < a -> 0 < d ->
  forall M j, nearest a d = (M, j) ->
    0 <= j /\ 0 <= M <= 2 ^ 53
    /\ (0 < j -> 2 ^ 52 <= M)
    /\ (d <= a -> 1 <= M).
Proof.
  intros Ha Hd M j. unfold nearest.
  set (la := Z.log2 a). set (ld := Z.log2 d).
  set (j0 := Z.max (la - ld - 52) 0).
  destruct (Z.log2_spec a Ha) as [La Ua]. fold la in La, Ua.
  destruct (Z.log2_spec d Hd) as [Ld Ud]. fold ld in Ld, Ud.
  assert (Hla : 0 <= la) by apply Z.log2_nonneg.
  assert (Hld : 0 <= ld) by apply Z.log2_nonneg.
  assert (Hj0 : 0 <= j0) by (unfold j0; lia).
  assert (P0 : 0 < 2 ^ j0) by (apply Z.pow_pos_nonneg; lia).
  (* a / (d * 2^j0) < 2^53 *)
  assert (U0 : a < d * 2 ^ j0 * 2 ^ 53).
  { assert (H : 2 ^ (la + 1) <= 2 ^ (ld + (j0 + 53)))
      by (apply Z.pow_le_mono_r; unfold j0; lia).
    assert (H' : 2 ^ (ld + (j0 + 53)) = 2 ^ ld * (2 ^ j0 * 2 ^ 53))
      by (rewrite !Z.pow_add_r by lia; reflexivity).
    assert (0 < 2 ^ 53) by reflexivity. nia. }
  intros E.
  assert (Q : forall jj, 0 <= jj -> a < d * 2 ^ jj * 2 ^ 53 ->
                         (0 < jj -> d * 2 ^ jj * 2 ^ 52 <= a) ->
                         round_at a d jj = M -> jj = j ->
                         0 <= j /\ 0 <= M <= 2 ^ 53
                         /\ (0 < j -> 2 ^ 52 <= M) /\ (d <= a -> 1 <= M)).
  { intros jj Hjj Up Lo EM <-.
    assert (Pj : 0 < 2 ^ jj) by (apply Z.pow_pos_nonneg; lia).
    assert (Pd : 0 < d * 2 ^ jj) by nia.
    pose proof (round_at_floor a d jj Hd Hjj) as [F1 F2].
    rewrite EM in F1, F2.
    assert (Q1 : a / (d * 2 ^ jj) < 2 ^ 53)
      by (apply Z.div_lt_upper_bound; lia).
    assert (Q0 : 0 <= a / (d * 2 ^ jj)) by (apply Z.div_pos; lia).
    split; [lia|]. split; [lia|]. split.
    - intros Hpos. specialize (Lo Hpos).
      assert (2 ^ 52 <= a / (d * 2 ^ jj)); [|lia].
      apply Z.div_le_lower_bound; lia.
    - intros Hda. destruct (Z.eq_dec jj 0) as [->|Hne].
      + change (2 ^ 0) with 1 in *. rewrite Z.mul_1_r in *.
        assert (1 <= a / d) by (apply Z.div_le_lower_bound; lia). lia.
      + assert (2 ^ 52 <= a / (d * 2 ^ jj))
          by (apply Z.div_le_lower_bound; [lia|apply Lo; lia]).
        assert (0 < 2 ^ 52) by reflexivity. lia. }
  rewrite (shiftr_div a d j0) in E by lia.
  destruct (Z.ltb_spec 0 j0) as [Hpos|Hz]; cbn [andb] in E.
  - destruct (Z.ltb_spec (a / (d * 2 ^ j0)) (2 ^ 52)) as [Small|Big].
    + (* one bit more *)
      injection E as EM Ej.
      assert (E0 : j0 = la - ld - 52) by (unfold j0; lia).
      assert (S0 : 2 ^ j0 = 2 * 2 ^ (j0 - 1)).
      { replace j0 with (1 + (j0 - 1)) at 1 by lia.
        rewrite Z.pow_add_r by lia. reflexivity. }
      assert (Pj : 0 < 2 ^ (j0 - 1)) by (apply Z.pow_pos_nonneg; lia).
      apply (Q (j0 - 1)); try assumption; try lia.
      * assert (Pd : 0 < d * 2 ^ j0) by nia.
        pose proof (Z.div_mod a (d * 2 ^ j0) ltac:(lia)) as DM.
        pose proof (Z.mod_pos_bound a (d * 2 ^ j0) Pd) as MB.
        change (2 ^ 53) with (2 * 2 ^ 52).
        assert (a < d * 2 ^ j0 * 2 ^ 52) by nia.
        rewrite S0 in H. lia.
      * intros _.
        assert (2 ^ (ld + 1) * 2 ^ (j0 - 1) * 2 ^ 52 = 2 ^ la).
        { rewrite <- !Z.pow_add_r by lia. f_equal. lia. }
        assert (0 < 2 ^ 52) by reflexivity. nia.
    + injection E as EM Ej.
      apply (Q j0); try assumption.
      intros _.
      assert (Pd : 0 < d * 2 ^ j0) by nia.
      pose proof (Z.div_mod a (d * 2 ^ j0) ltac:(lia)) as DM.
      pose proof (Z.mod_pos_bound a (d * 2 ^ j0) Pd) as MB.
      nia.
  - injection E as EM Ej.
    apply (Q j0); try assumption. lia.
Qed.

Lemma scaled_pos (m e : Z) :
  forall a d, scaled m e = (a, d) -> 0 <= a /\ 0 < d /\ (m <> 0 -> 0 < a).
Proof.
  intros a d. rewrite scaled_eq.
  assert (0 < 2 ^ 1074) by (apply Z.pow_pos_nonneg; lia).
  destruct (Z.leb_spec 0 e); intros E; injection E as <- <-.
  - assert (0 < 10 ^ e) by (apply Z.pow_pos_nonneg; lia).
    split; [|split]; [nia|lia|]. intros. assert (0 < Z.abs m) by lia. nia.
  - assert (0 < 10 ^ (- e)) by (apply Z.pow_pos_nonneg; lia).
    split; [|split]; [nia|lia|]. intros. assert (0 < Z.abs m) by lia. nia.
Qed.

Lemma is_binary64_zero (e : Z) : is_binary64 0 e = true.
Proof.
  rewrite is_binary64_eq, scaled_eq.
  destruct (0 <=? e); cbn [Z.abs]; rewrite ?Z.mul_0_l, Zmod_0_l, Zdiv_0_l;
    reflexivity.
Qed.

Lemma abs_signed (neg : bool) (M k : Z) :
  0 <= M -> 0 <= k -> Z.abs ((if neg then - M else M) * k) = M * k.
Proof. intros. destruct neg; nia. Qed.

Lemma twos_nonneg (p : positive) : 0 <= twos p.
Proof. induction p; cbn [twos]; lia. Qed.

Lemma twos_divides (p : positive) : (2 ^ twos p | Zpos p).
Proof.
  induction p as [p IH|p IH|]; cbn [twos]; try apply Z.divide_1_l.
  destruct IH as [c Ec]. exists c.
  rewrite Z.pow_add_r by (try apply twos_nonneg; lia).
  change (2 ^ 1) with 2. rewrite Pos2Z.inj_xO, Ec. ring.
Qed.

Lemma trailing_zeros_divides (M g : Z) :
  0 <= g <= trailing_zeros M -> M / 2 ^ g * 2 ^ g = M.
Proof.
  intros Hg. destruct M as [|p|p]; cbn [trailing_zeros] in Hg.
  - reflexivity.
  - destruct (twos_divides p) as [c Ec].
    assert (P : 0 < 2 ^ g) by (apply Z.pow_pos_nonneg; lia).
    assert (D : (2 ^ g | Zpos p)).
    { exists (c * 2 ^ (twos p - g)).
      rewrite <- Z.mul_assoc, <- Z.pow_add_r by lia.
      replace (twos p - g + g) with (twos p) by lia. exact Ec. }
    destruct D as [q Eq]. rewrite Eq, Z.div_mul by lia. reflexivity.
  - assert (g = 0) by lia. subst g. change (2 ^ 0) with 1.
    rewrite Z.div_1_r. lia.
Qed.

Lemma trailing_zeros_nonneg (M : Z) : 0 <= trailing_zeros M.
Proof. destruct M; cbn [trailing_zeros]; try lia. apply twos_nonneg. Qed.

Lemma of_units_number64 (neg : bool) (M j : Z) :
  0 <= M <= 2 ^ 53 -> 0 <= j -> is_number64 (of_units neg M j) = true.
Proof.
  intros HM Hj. rewrite of_units_eq by lia.
  destruct (Z.leb_spec 1074 j) as [Hbig|Hsmall].
  - destruct (Z.leb_spec (2 ^ 1024) (M * 2 ^ (j - 1074))) as [|Hfin];
      [reflexivity|].
    cbn [is_number64]. rewrite is_binary64_eq, scaled_eq.
    cbn [Z.leb Z.compare].
    assert (Pk : 0 < 2 ^ (j - 1074)) by (apply Z.pow_pos_nonneg; lia).
    rewrite abs_signed by lia.
    change (10 ^ 0) with 1. rewrite Z.mul_1_r, Z.mod_1_r, Z.div_1_r.
    cbn [Z.eqb].
    assert (Ej : M * 2 ^ (j - 1074) * 2 ^ 1074 = M * 2 ^ j).
    { rewrite <- Z.mul_assoc, <- Z.pow_add_r by lia. do 2 f_equal. lia. }
    rewrite Ej.
    assert (P : 0 < 2 ^ 1074) by (apply Z.pow_pos_nonneg; lia).
    assert (B : M * 2 ^ j < 2 ^ 2098).
    { rewrite <- Ej. change (2 ^ 2098) with (2 ^ 1024 * 2 ^ 1074). nia. }
    apply Z.ltb_lt in B. rewrite B. apply fits_units; assumption.
  - cbv zeta. set (k := 1074 - j). set (g := Z.min k (trailing_zeros M)).
    pose proof (trailing_zeros_nonneg M) as Hz.
    assert (Hg : 0 <= g <= trailing_zeros M) by (unfold g, k; lia).
    pose proof (trailing_zeros_divides M g Hg) as EM.
    set (M' := M / 2 ^ g) in *.
    assert (Pg : 0 < 2 ^ g) by (apply Z.pow_pos_nonneg; lia).
    assert (HM' : 0 <= M') by nia.
    assert (P5 : 0 < 5 ^ (k - g)) by (apply Z.pow_pos_nonneg; unfold g; lia).
    assert (Units : M * 2 ^ j = M' * 2 ^ (j + g)).
    { rewrite <- EM at 1. rewrite <- Z.mul_assoc, <- Z.pow_add_r by lia.
      do 2 f_equal. lia. }
    assert (B : M * 2 ^ j < 2 ^ 2098).
    { assert (2 ^ j < 2 ^ 1074) by (apply Z.pow_lt_mono_r; lia).
      assert (0 < 2 ^ j) by (apply Z.pow_pos_nonneg; lia).
      change (2 ^ 2098) with (2 ^ 1024 * 2 ^ 1074).
      assert (2 ^ 53 < 2 ^ 1024) by reflexivity. nia. }
    apply Z.ltb_lt in B.
    cbn [is_number64]. rewrite is_binary64_eq, scaled_eq.
    rewrite abs_signed by lia.
    destruct (Z.leb_spec 0 (g - k)) as [Hge|Hlt].
    + assert (g = k) by (unfold g in *; lia).
      replace (g - k) with 0 by lia. replace (k - g) with 0 by lia.
      change (5 ^ 0) with 1. change (10 ^ 0) with 1.
      rewrite !Z.mul_1_r, Z.mod_1_r, Z.div_1_r. cbn [Z.eqb].
      replace (M' * 2 ^ 1074) with (M * 2 ^ j)
        by (rewrite Units; do 2 f_equal; unfold k in *; lia).
      rewrite B. apply fits_units; assumption.
    + replace (- (g - k)) with (k - g) by lia.
      assert (Ea : M' * 5 ^ (k - g) * 2 ^ 1074
                   = M * 2 ^ j * 10 ^ (k - g)).
      { rewrite Units.
        replace 1074 with (j + g + (k - g)) at 1 by (unfold k; lia).
        rewrite (Z.pow_add_r 2 (j + g)) by lia.
        change 10 with (2 * 5). rewrite Z.pow_mul_l. ring. }
      rewrite Ea.
      assert (P10 : 10 ^ (k - g) <> 0) by (apply Z.pow_nonzero; lia).
      rewrite Z.mod_mul, Z.div_mul by assumption. cbn [Z.eqb].
      rewrite B. apply fits_units; assumption.
Qed.

(** What [binary64] returns is a binary64 value, which it leaves as it is. *)
Lemma binary64_number64 (x : number) : is_number64 (binary64 x) = true.
Proof.
  destruct x as [| |m e]; try reflexivity. unfold binary64.
  destruct (is_binary64 m e) eqn:B; [exact B|].
  destruct (scaled m e) as [a d] eqn:S.
  destruct (scaled_pos m e a d S) as (_ & Hd & Ha).
  assert (Hm : m <> 0) by (intros ->; rewrite is_binary64_zero in B; discriminate).
  destruct (nearest a d) as [M j] eqn:N.
  destruct (nearest_bounds a d (Ha Hm) Hd M j N) as (Hj & HM & _).
  apply of_units_number64; assumption.
Qed.

Lemma binary64_fixed (x : number) : is_number64 x = true -> binary64 x = x.
Proof.
  destruct x as [| |m e]; try reflexivity. cbn [is_number64 binary64].
  intros ->. reflexivity.
Qed.

Lemma binary64_idempotent (x : number) : binary64 (binary64 x) = binary64 x.
Proof. apply binary64_fixed, binary64_number64. Qed.

Lemma of_units_NaN (neg : bool) (M j : Z) : isNaN (of_units neg M j) = false.
Proof.
  unfold of_units.
  destruct (1074 <=? j);
    [destruct ((0 <? M) && (1024 <=? Z.log2 M + (j - 1074)))|]; reflexivity.
Qed.

Lemma binary64_NaN (x : number) : isNaN (binary64 x) = isNaN x.
Proof.
  destruct x as [| |m e]; try reflexivity. unfold binary64.
  destruct (is_binary64 m e); [reflexivity|].
  destruct (scaled m e) as [a d]. destruct (nearest a d) as [M j].
  apply of_units_NaN.
Qed.

(** ** Integers up to [2^53] *)



(** ** The sign of a difference *)












(** ** Integers beyond [2^53], and the shortest decimal of an integer *)







(** ** Objects *)

Lemma lookup_set_prop (ps : list (string * value)) (k k' : string) (v : value) :
  lookup k (set_prop ps k' v) = if String.eqb k k' then Some v else lookup k ps.
Proof.
  induction ps as [|[k0 v0] r IH]; simpl.
  - destruct (String.eqb k k'); reflexivity.
  - destruct (String.eqb_spec k' k0) as [->|Hne]; simpl.
    + destruct (String.eqb k k0); reflexivity.
    + rewrite IH. destruct (String.eqb_spec k k0) as [->|]; auto.
      destruct (String.eqb_spec k0 k') as [<-|]; congruence.
Qed.

Lemma lookup_assign_absent (k : string) (ps acc : list (string * value)) :
  lookup k ps = None ->
  lookup k (fold_left assign ps acc) = lookup k acc.
Proof.
  revert acc. induction ps as [|[k0 v0] r IH]; simpl; intros acc H; auto.
  destruct (String.eqb_spec k k0) as [->|Hne]; [discriminate|].
  rewrite IH by assumption. unfold assign; simpl.
  rewrite lookup_set_prop.
  destruct (String.eqb_spec k k0); congruence.
Qed.

Lemma nodup_keys_cons (k : string) (v : value) (r : list (string * value)) :
  nodup_keys ((k, v) :: r) = true -> lookup k r = None /\ nodup_keys r = true.
Proof.
  simpl. intros H. apply andb_prop in H as [H1 H2]. split; auto.
  apply negb_true_iff in H1. clear H2.
  induction r as [|[k1 v1] r IH]; simpl in *; auto.
  apply orb_false_elim in H1 as [E1 E2].
  rewrite E1. auto.
Qed.

Lemma lookup_assign (k : string) (ps acc : list (string * value)) :
  nodup_keys ps = true ->
  lookup k (fold_left assign ps acc) =
  match lookup k ps with Some v => Some v | None => lookup k acc end.
Proof.
  revert acc. induction ps as [|[k0 v0] r IH]; intros acc H; auto.
  apply nodup_keys_cons in H as [Hk Hr].
  simpl. destruct (String.eqb_spec k k0) as [->|Hne].
  - rewrite lookup_assign_absent by assumption.
    unfold assign; simpl. rewrite lookup_set_prop, String.eqb_refl. reflexivity.
  - rewrite IH by assumption. unfold assign; simpl. rewrite lookup_set_prop.
    destruct (String.eqb_spec k k0); congruence.
Qed.

Lemma is_record_inv (v : value) :
  is_record v = true -> exists ps, v = VObj ps /\ nodup_keys ps = true.
Proof. destruct v; simpl; try discriminate. eauto. Qed.

(** ** Running a handler step by step *)

(** The next step of a computation runs as the equation [E] says. *)
Ltac step E := unfold bind at 1; rewrite E.

(** ** Running the array methods on callbacks that do not throw *)

Lemma Array_filter_pure (p : value -> M bool) (q : value -> bool)
      (l : list value) (d : disk) :
  Forall (fun x => p x d = (inr (q x), d)) l ->
  Array_filter p l d = (inr (filter q l), d).
Proof.
  induction 1 as [|x r Hx _ IH]; simpl; auto.
  step Hx. step IH. unfold ret. destruct (q x); reflexivity.
Qed.

Lemma Array_map_pure {A} (f : value -> M A) (g : value -> A)
      (l : list value) (d : disk) :
  Forall (fun x => f x d = (inr (g x), d)) l ->
  Array_map f l d = (inr (map g l), d).
Proof.
  induction 1 as [|x r Hx _ IH]; simpl; auto.
  step Hx. step IH. reflexivity.
Qed.

Lemma Array_find_pure (p : value -> M bool) (q : value -> bool)
      (l : list value) (d : disk) :
  Forall (fun x => p x d = (inr (q x), d)) l ->
  Array_find p l d =
  (inr (match find q l with Some x => x | None => VUndefined end), d).
Proof.
  induction 1 as [|x r Hx _ IH]; simpl; auto.
  step Hx. destruct (q x); auto.
Qed.

Lemma records_Forall (P : value -> Prop) (l : list value) :
  forallb is_record l = true ->
  (forall ps, nodup_keys ps = true -> P (VObj ps)) ->
  Forall P l.
Proof.
  intros H HP. apply Forall_forall. intros x Hx.
  rewrite forallb_forall in H. apply H in Hx.
  apply is_record_inv in Hx as (ps & -> & Hn). auto.
Qed.

(** ** Reading a collection *)

Lemma get_array_collection (name : string) (ps : list (string * value))
      (k method : string) (l : list value) (d : disk) :
  lookup k ps = Some (VArr l) ->
  get_array name (VObj ps) k method d = (inr l, d).
Proof.
  intros H. unfold get_array, get, bind, ret, prop. rewrite H. reflexivity.
Qed.

Lemma read_books (d : disk) (bs : list value) :
  collection (books_json d) "books" = Some bs ->
  exists ps, readJsonFile "books.json" d = (inr (VObj ps), d)
             /\ lookup "books" ps = Some (VArr bs).
Proof.
  unfold collection, readJsonFile; simpl.
  destruct (contents (books_json d)) as [|[]]; try discriminate.
  destruct (lookup "books" props) as [[]|] eqn:E; try discriminate.
  intros [= ->]. eauto.
Qed.

Lemma read_reviews (d : disk) (rs : list value) :
  collection (reviews_json d) "reviews" = Some rs ->
  exists ps, readJsonFile "reviews.json" d = (inr (VObj ps), d)
             /\ lookup "reviews" ps = Some (VArr rs).
Proof.
  unfold collection, readJsonFile; simpl.
  destruct (contents (reviews_json d)) as [|[]]; try discriminate.
  destruct (lookup "reviews" props) as [[]|] eqn:E; try discriminate.
  intros [= ->]. eauto.
Qed.

(** Reading a collection [L] under the document that [R] reads. *)
Ltac read_collection R L :=
  step R; unfold bind at 1; rewrite (get_array_collection _ _ _ _ _ _ L);
  unfold bind at 1.

(** ** Sorting *)



Section SortedByKey.

Variable A : Type.
Variable key : A -> number.
Variable cmp : A -> A -> number.
Variable ok : A -> Prop.
Hypothesis ok_number : forall a, ok a -> isNaN (key a) = false.
Hypothesis cmp_key : forall a b,
    ok a -> ok b -> sort_after (cmp a b) = num_lt (key a) (key b).





End SortedByKey.



(** ** Printing an integer and reading it back *)





















(** ** The API key *)

Lemma api_key_header (req : request) :
  req_get req "X-API-Key" =
  match assoc "x-api-key" (headers req) with
  | Some v => VStr v
  | None => VUndefined
  end.
Proof. reflexivity. Qed.

Lemma authenticateKey_rejects (req : request) (next : handler) (d : disk) :
  bad_api_key req -> authenticateKey req next d = (unauthorized, d).
Proof.
  unfold bad_api_key, authenticateKey. rewrite api_key_header.
  destruct (assoc "x-api-key" (headers req)) as [k|]; intros H; auto.
  unfold includes, VALID_API_KEYS; cbn [existsb strict_eq].
  rewrite String.eqb_sym.
  destruct (String.eqb_spec k "amana-secret-key-12345"); [contradiction|].
  rewrite andb_false_r. reflexivity.
Qed.

Lemma authenticateKey_accepts (req : request) (next : handler) :
  good_api_key req -> authenticateKey req next = next.
Proof.
  unfold good_api_key, authenticateKey. rewrite api_key_header.
  intros ->. reflexivity.
Qed.

(** C4.  A POST to [/api/books] or [/api/reviews] whose [X-API-Key] header
    is absent or is not the shared secret is answered 401 by the
    middleware, whatever the body and the files are, and both files are
    left as they were. *)
Theorem unauthorized_post_is_401 (e : env) (req : request) (d : disk) :
  bad_api_key req ->
  post_books e req d = (unauthorized, d)
  /\ post_reviews e req d = (unauthorized, d)
  /\ status unauthorized = 401.
Proof.
  intros H. unfold post_books, post_reviews.
  rewrite !authenticateKey_rejects by assumption. auto.
Qed.

(** ** The date-range route *)

Section DateRangeFacts.

Variable Date_parse : string -> number.

(** C6.  When [start] or [end] is missing, when one of them does not
    parse as a date, or when [start] is after [end], the date-range route
    answers 400 (and reads no file). *)
Theorem date_range_rejects (req : request) (d : disk) :
  lookup "start" (query req) = None
  \/ lookup "end" (query req) = None
  \/ isNaN (new_Date Date_parse (req_query req "start")) = true
  \/ isNaN (new_Date Date_parse (req_query req "end")) = true
  \/ num_gt (new_Date Date_parse (req_query req "start"))
            (new_Date Date_parse (req_query req "end")) = true ->
  status (fst (get_books_date_range Date_parse req d)) = 400
  /\ snd (get_books_date_range Date_parse req d) = d.
Proof.
  intros H. unfold get_books_date_range, try_catch.
  destruct (truthy (req_query req "start")) eqn:Ts; [|simpl; auto].
  destruct (truthy (req_query req "end")) eqn:Te; [|simpl; auto].
  cbn [negb orb].
  destruct (isNaN (new_Date Date_parse (req_query req "start"))) eqn:Ns;
    [simpl; auto|].
  destruct (isNaN (new_Date Date_parse (req_query req "end"))) eqn:Ne;
    [simpl; auto|].
  cbn [orb].
  destruct (num_gt (new_Date Date_parse (req_query req "start"))
                   (new_Date Date_parse (req_query req "end"))) eqn:G;
    [simpl; auto|].
  exfalso. unfold req_query, prop in Ts, Te.
  destruct H as [H|[H|[H|[H|H]]]]; try discriminate.
  - rewrite H in Ts. discriminate.
  - rewrite H in Te. discriminate.
Qed.


End DateRangeFacts.

(** ** Looking a book up, and the reviews of a book *)

Lemma has_id_true (id : string) (b : value) :
  has_id id b = true <-> prop b "id" = VStr id.
Proof.
  unfold has_id. destruct (prop b "id"); simpl; split; try discriminate.
  - intros H. apply String.eqb_eq in H. congruence.
  - intros [= ->]. apply String.eqb_refl.
Qed.

(** C7.  [GET /api/books/:id] answers 200 with the book of the collection
    whose [id] is the string of the path (the first one, should several
    have it), and 404 when no book of the collection has that [id]. *)
Theorem book_by_id (req : request) (d : disk) (bs : list value) (id : string) :
  assoc "id" (params req) = Some id ->
  collection (books_json d) "books" = Some bs ->
  forallb is_record bs = true ->
  ((exists b, In b bs /\ prop b "id" = VStr id) ->
   exists b, find (has_id id) bs = Some b
             /\ In b bs /\ prop b "id" = VStr id
             /\ get_book_by_id req d
                = (json 200 [("success", VBool true); ("data", b)], d))
  /\ ((forall b, In b bs -> prop b "id" <> VStr id) ->
      status (fst (get_book_by_id req d)) = 404
      /\ snd (get_book_by_id req d) = d).
Proof.
  intros Hid Hc Hr.
  assert (Run : get_book_by_id req d =
    (match find (has_id id) bs with
     | Some b => json 200 [("success", VBool true); ("data", b)]
     | None => json 404 [("success", VBool false);
                         ("error", VStr "Book not found");
                         ("message", VStr ("No book found with ID: " ++ id))]
     end, d)).
  { unfold get_book_by_id, try_catch, req_param. rewrite Hid.
    destruct (read_books d bs Hc) as (ps & R & L).
    read_collection R L.
    rewrite (Array_find_pure _ (has_id id)).
    - destruct (find (has_id id) bs) as [b|] eqn:F; [|reflexivity].
      apply find_some in F as [Hin _].
      rewrite forallb_forall in Hr. apply Hr in Hin.
      apply is_record_inv in Hin as (qs & -> & _). reflexivity.
    - apply records_Forall; auto. }
  split.
  - intros (b & Hb & Eb). rewrite Run.
    destruct (find (has_id id) bs) as [b'|] eqn:F.
    + exists b'. apply find_some in F as [Hin Hb'].
      apply has_id_true in Hb'. auto.
    + exfalso. apply (find_none _ _ F) in Hb.
      apply has_id_true in Eb. congruence.
  - intros Hno. rewrite Run.
    destruct (find (has_id id) bs) as [b|] eqn:F; [|simpl; auto].
    apply find_some in F as [Hin Hb]. exfalso. apply (Hno b Hin).
    apply has_id_true. exact Hb.
Qed.

Lemma filter_none {A} (p : A -> bool) (l : list A) :
  (forall x, In x l -> p x = false) -> filter p l = [].
Proof.
  induction l as [|x r IH]; simpl; intros H; auto.
  rewrite (H x) by auto. auto.
Qed.

(** C8.  When no review of the collection has the requested [bookId],
    [GET /api/reviews/book/:bookId] answers 200 with [success: true],
    [count: 0] and an empty list, and not an error. *)
Theorem no_reviews_is_not_an_error (req : request) (d : disk)
        (rs : list value) (id : string) :
  assoc "bookId" (params req) = Some id ->
  collection (reviews_json d) "reviews" = Some rs ->
  forallb is_record rs = true ->
  (forall r, In r rs -> prop r "bookId" <> VStr id) ->
  let res := fst (get_reviews_by_book req d) in
  status res = 200
  /\ prop (body_sent res) "success" = VBool true
  /\ prop (body_sent res) "count" = VNum (num_of_Z 0)
  /\ prop (body_sent res) "data" = VArr []
  /\ snd (get_reviews_by_book req d) = d.
Proof.
  intros Hid Hc Hr Hno.
  assert (E : filter (has_bookId id) rs = []).
  { apply filter_none. intros r Hin. unfold has_bookId.
    specialize (Hno r Hin).
    destruct (prop r "bookId"); simpl; auto.
    destruct (String.eqb_spec s id); congruence. }
  assert (Run : get_reviews_by_book req d =
    (json 200 [("success", VBool true);
               ("message", VStr ("No reviews found for book with ID: " ++ id));
               ("count", VNum (num_of_Z 0));
               ("data", VArr [])], d)).
  { unfold get_reviews_by_book, try_catch, req_param. rewrite Hid.
    destruct (read_reviews d rs Hc) as (ps & R & L).
    read_collection R L.
    rewrite (Array_filter_pure _ (has_bookId id)).
    - rewrite E. reflexivity.
    - apply records_Forall; auto. }
  rewrite Run. cbn. repeat split.
Qed.

(** ** [Math.max] on integers *)





(** ** The bodies of the two POST routes *)

Lemma get_object (ps : list (string * value)) (k : string) :
  get (VObj ps) k = ret (prop (VObj ps) k).
Proof. reflexivity. Qed.

Lemma post_books_rejects (e : env) (req : request) (d : disk)
      (ps : list (string * value)) :
  good_api_key req ->
  body req = VObj ps ->
  truthy (prop (VObj ps) "title") && truthy (prop (VObj ps) "author")
    && truthy (prop (VObj ps) "price") = false ->
  post_books e req d
  = (json 400
       [("success", VBool false);
        ("error", VStr "Missing required fields");
        ("message", VStr "Please provide title, author, and price for the new book.")],
     d).
Proof.
  intros Hk Hb Hf. unfold post_books.
  rewrite authenticateKey_accepts by assumption.
  unfold try_catch. rewrite Hb, !get_object.
  cbv beta delta [bind ret] iota.
  destruct (truthy (prop (VObj ps) "title")),
    (truthy (prop (VObj ps) "author")),
    (truthy (prop (VObj ps) "price")); try discriminate; reflexivity.
Qed.

Lemma post_reviews_rejects (e : env) (req : request) (d : disk)
      (ps : list (string * value)) :
  good_api_key req ->
  body req = VObj ps ->
  truthy (prop (VObj ps) "bookId") && truthy (prop (VObj ps) "author")
    && truthy (prop (VObj ps) "rating") && truthy (prop (VObj ps) "comment")
  = false ->
  post_reviews e req d
  = (json 400
       [("success", VBool false);
        ("error", VStr "Missing required fields");
        ("message", VStr "Please provide bookId, author, rating, and comment.")],
     d).
Proof.
  intros Hk Hb Hf. unfold post_reviews.
  rewrite authenticateKey_accepts by assumption.
  unfold try_catch. rewrite Hb, !get_object.
  cbv beta delta [bind ret] iota.
  destruct (truthy (prop (VObj ps) "bookId")),
    (truthy (prop (VObj ps) "author")),
    (truthy (prop (VObj ps) "rating")),
    (truthy (prop (VObj ps) "comment")); try discriminate; reflexivity.
Qed.

Lemma falsy_prop (ps : list (string * value)) (k : string) (v : value) :
  lookup k ps = Some v -> truthy v = false -> truthy (prop (VObj ps) k) = false.
Proof. unfold prop. intros -> H. exact H. Qed.

(** C9.  The required-field checks test truthiness, not presence: with a
    valid key, a body in which a required field is present but falsy
    ([0], [""], [false], [null]) is rejected with the 400
    "Missing required fields" answer, by both POST routes. *)
Theorem falsy_required_field_is_400 (e : env) (req : request) (d : disk)
        (ps : list (string * value)) (k : string) (v : value) :
  good_api_key req ->
  body req = VObj ps ->
  lookup k ps = Some v ->
  truthy v = false ->
  (In k ["title"; "author"; "price"] ->
   post_books e req d
   = (json 400
        [("success", VBool false);
         ("error", VStr "Missing required fields");
         ("message", VStr "Please provide title, author, and price for the new book.")],
      d))
  /\ (In k ["bookId"; "author"; "rating"; "comment"] ->
      post_reviews e req d
      = (json 400
           [("success", VBool false);
            ("error", VStr "Missing required fields");
            ("message", VStr "Please provide bookId, author, rating, and comment.")],
         d)).
Proof.
  intros Hk Hb Hl Hv.
  pose proof (falsy_prop ps k v Hl Hv) as F.
  split; intros Hin; simpl in Hin.
  - apply (post_books_rejects e req d ps Hk Hb).
    destruct Hin as [<-|[<-|[<-|[]]]]; rewrite F;
      rewrite ?andb_false_r; reflexivity.
  - apply (post_reviews_rejects e req d ps Hk Hb).
    destruct Hin as [<-|[<-|[<-|[<-|[]]]]]; rewrite F;
      rewrite ?andb_false_r; reflexivity.
Qed.

(** ** What is read back after a write *)

Lemma json_props_cons (k : string) (x : value) (r : list (string * value)) :
  json_props ((k, x) :: r) =
  match x with
  | VUndefined => json_props r
  | _ => (k, json_clone x) :: json_props r
  end.
Proof. destruct x; reflexivity. Qed.

Lemma json_clone_object (ps : list (string * value)) :
  json_clone (VObj ps) = VObj (json_props ps).
Proof. reflexivity. Qed.

Lemma lookup_json_props (k : string) (ps : list (string * value)) (v : value) :
  lookup k ps = Some v -> v <> VUndefined ->
  lookup k (json_props ps) = Some (json_clone v).
Proof.
  induction ps as [|[k0 x] r IH]; simpl; [discriminate|].
  intros H Hv. rewrite json_props_cons.
  destruct (String.eqb_spec k k0) as [->|Hne].
  - injection H as ->. destruct v; try congruence; simpl;
      rewrite String.eqb_refl; reflexivity.
  - destruct x; simpl; try (apply String.eqb_neq in Hne; rewrite Hne); auto.
Qed.

Lemma store_books (d : disk) (v : value) :
  store d "books.json" v
  = {| books_json := {| contents := inr v;
                        write_error := write_error (books_json d) |};
       reviews_json := reviews_json d |}.
Proof. reflexivity. Qed.

Lemma store_reviews (d : disk) (v : value) :
  store d "reviews.json" v
  = {| books_json := books_json d;
       reviews_json := {| contents := inr v;
                          write_error := write_error (reviews_json d) |} |}.
Proof. reflexivity. Qed.

Lemma stored_collection (d : disk) (ps : list (string * value))
      (l : list value) :
  collection (books_json (store d "books.json"
                            (json_clone (VObj (set_prop ps "books" (VArr l))))))
             "books"
  = Some (map json_element l).
Proof.
  rewrite store_books. unfold collection. cbn [books_json contents].
  rewrite json_clone_object.
  rewrite (lookup_json_props "books" _ (VArr l)).
  - reflexivity.
  - rewrite lookup_set_prop. reflexivity.
  - discriminate.
Qed.

Lemma stored_reviews (d : disk) (ps : list (string * value))
      (l : list value) :
  collection (reviews_json (store d "reviews.json"
                              (json_clone (VObj (set_prop ps "reviews" (VArr l))))))
             "reviews"
  = Some (map json_element l).
Proof.
  rewrite store_reviews. unfold collection. cbn [reviews_json contents].
  rewrite json_clone_object.
  rewrite (lookup_json_props "reviews" _ (VArr l)).
  - reflexivity.
  - rewrite lookup_set_prop. reflexivity.
  - discriminate.
Qed.

(** ** Creating a book *)



(** ** The top-rated route *)












(** ** Handlers that only read *)

Lemma readonly_bind {A B} (m : M A) (f : A -> M B) :
  readonly m -> (forall x, readonly (f x)) -> readonly (bind m f).
Proof.
  intros Hm Hf d. unfold bind. specialize (Hm d).
  destruct (m d) as [[e|x] d']; simpl in *; subst; auto. apply Hf.
Qed.

Lemma readonly_ret {A} (x : A) : readonly (ret x).
Proof. intros d. reflexivity. Qed.

Lemma readonly_get (o : value) (k : string) : readonly (get o k).
Proof. destruct o; intros d; reflexivity. Qed.

Lemma readonly_get_array (name : string) (o : value) (k method : string) :
  readonly (get_array name o k method).
Proof.
  apply readonly_bind; [apply readonly_get|].
  intros []; intros d; reflexivity.
Qed.

Lemma readonly_readJsonFile (filename : string) :
  readonly (readJsonFile filename).
Proof.
  intros d. unfold readJsonFile.
  destruct (file_named d filename) as [f|]; auto.
  destruct (contents f); reflexivity.
Qed.

Lemma readonly_Array_map {A} (f : value -> M A) (l : list value) :
  (forall x, readonly (f x)) -> readonly (Array_map f l).
Proof.
  intros Hf. induction l as [|x r IH]; simpl; [apply readonly_ret|].
  apply readonly_bind; auto. intros y.
  apply readonly_bind; auto. intros ys. apply readonly_ret.
Qed.

Lemma readonly_try_catch (m : M response) (error : string) (d : disk) :
  readonly m -> snd (try_catch m error d) = d.
Proof.
  intros H. unfold try_catch. specialize (H d).
  destruct (m d) as [[e|r] d']; auto.
Qed.

Create HintDb readonly.

#[local] Hint Resolve readonly_bind readonly_ret readonly_get
  readonly_get_array readonly_readJsonFile readonly_Array_map : readonly.

Lemma readonly_with_score (book : value) : readonly (with_score book).
Proof. unfold with_score. auto with readonly. Qed.

#[local] Hint Resolve readonly_with_score : readonly.


(** ** The id of a new book *)






(** ** Creating a review *)

Lemma post_reviews_creates (e : env) (req : request) (d : disk)
      (ps : list (string * value)) (rs : list value) :
  good_api_key req ->
  body req = VObj ps ->
  truthy (prop (VObj ps) "bookId") && truthy (prop (VObj ps) "author")
    && truthy (prop (VObj ps) "rating") && truthy (prop (VObj ps) "comment")
  = true ->
  collection (reviews_json d) "reviews" = Some rs ->
  write_error (reviews_json d) = None ->
  exists fs,
    post_reviews e req d
    = (json 201
         [("success", VBool true);
          ("message", VStr "Review added successfully!");
          ("data", reviewToAdd e (VObj ps))],
       store d "reviews.json"
         (json_clone (VObj (set_prop fs "reviews"
                              (VArr (rs ++ [reviewToAdd e (VObj ps)])))))).
Proof.
  intros Hk Hb Ht Hc Hw.
  destruct (read_reviews d rs Hc) as (fs & R & L).
  exists fs.
  unfold post_reviews. rewrite authenticateKey_accepts by assumption.
  unfold try_catch. rewrite Hb, !get_object.
  apply andb_prop in Ht as [Ht H4]. apply andb_prop in Ht as [Ht H3].
  apply andb_prop in Ht as [H1 H2].
  cbv beta delta [bind ret] iota.
  rewrite H1, H2, H3, H4. cbn [negb orb].
  rewrite R. rewrite (get_array_collection _ _ _ _ _ _ L).
  unfold writeJsonFile. cbn [file_named String.eqb Ascii.eqb Bool.eqb].
  rewrite Hw. reflexivity.
Qed.

Lemma reviewToAdd_id (e : env) (ps : list (string * value)) :
  lookup "id" ps = None ->
  prop (reviewToAdd e (VObj ps)) "id" = VStr ("review-" ++ randomUUID e).
Proof.
  intros H. unfold reviewToAdd, prop.
  rewrite !lookup_set_prop. cbn [String.eqb Ascii.eqb Bool.eqb].
  unfold spread. cbn [own_props].
  rewrite lookup_assign_absent by assumption. reflexivity.
Qed.

Lemma reviewToAdd_timestamp (e : env) (newReview : value) :
  prop (reviewToAdd e newReview) "timestamp" = VStr (now_ISO e).
Proof.
  unfold reviewToAdd, prop. rewrite !lookup_set_prop. reflexivity.
Qed.

Lemma reviewToAdd_verified (e : env) (ps : list (string * value)) :
  lookup "verified" ps = None ->
  prop (reviewToAdd e (VObj ps)) "verified" = VBool false.
Proof.
  intros H. unfold reviewToAdd. unfold prop at 1.
  rewrite !lookup_set_prop. cbn [String.eqb Ascii.eqb Bool.eqb].
  unfold prop. rewrite H. reflexivity.
Qed.

(** C5, as amended.  With a valid API key: a body in which [bookId],
    [author], [rating] or [comment] is missing or falsy is answered 400 and
    nothing is written; a body in which the four are truthy and that
    carries no [id] of its own is answered 201, when the reviews file holds
    a collection and can be written, with a record whose [id] is
    [review-<uuid>], whose [timestamp] is the time of creation and whose
    [verified] is [false] unless the body gives it.  The books file is
    neither read nor written: whether [bookId] names a book does not
    matter. *)
Theorem create_review (e : env) (req : request) (d : disk)
        (ps : list (string * value)) :
  good_api_key req ->
  body req = VObj ps ->
  (truthy (prop (VObj ps) "bookId") && truthy (prop (VObj ps) "author")
     && truthy (prop (VObj ps) "rating") && truthy (prop (VObj ps) "comment")
   = false ->
   status (fst (post_reviews e req d)) = 400 /\ snd (post_reviews e req d) = d)
  /\ (truthy (prop (VObj ps) "bookId") && truthy (prop (VObj ps) "author")
        && truthy (prop (VObj ps) "rating") && truthy (prop (VObj ps) "comment")
      = true ->
      lookup "id" ps = None ->
      forall rs,
        collection (reviews_json d) "reviews" = Some rs ->
        write_error (reviews_json d) = None ->
        exists review d',
          post_reviews e req d
          = (json 201 [("success", VBool true);
                       ("message", VStr "Review added successfully!");
                       ("data", review)], d')
          /\ prop review "id" = VStr ("review-" ++ randomUUID e)
          /\ prop review "timestamp" = VStr (now_ISO e)
          /\ (lookup "verified" ps = None -> prop review "verified" = VBool false)
          /\ collection (reviews_json d') "reviews"
             = Some (map json_element (rs ++ [review]))
          /\ books_json d' = books_json d).
Proof.
  intros Hk Hb. split.
  - intros Hf. rewrite (post_reviews_rejects e req d ps Hk Hb Hf). auto.
  - intros Ht Hid rs Hc Hw.
    destruct (post_reviews_creates e req d ps rs Hk Hb Ht Hc Hw) as (fs & Run).
    eexists. eexists. split; [exact Run|].
    split; [apply reviewToAdd_id; assumption|].
    split; [apply reviewToAdd_timestamp|].
    split; [apply reviewToAdd_verified|].
    split; [apply stored_reviews|reflexivity].
Qed.

(** ** Records stay records *)

Lemma nodup_keys_unfold (k : string) (v : value) (r : list (string * value)) :
  nodup_keys ((k, v) :: r) = negb (has_key k r) && nodup_keys r.
Proof. reflexivity. Qed.

Lemma has_key_set_prop (k0 k : string) (v : value) (ps : list (string * value)) :
  has_key k0 (set_prop ps k v) = has_key k0 ps || String.eqb k0 k.
Proof.
  induction ps as [|[k' v'] r IH]; simpl.
  - apply orb_false_r.
  - destruct (String.eqb_spec k k') as [->|Hne]; simpl.
    + destruct (String.eqb k0 k'), (has_key k0 r); reflexivity.
    + rewrite IH. unfold has_key. rewrite orb_assoc. reflexivity.
Qed.

Lemma nodup_keys_set_prop (k : string) (v : value) (ps : list (string * value)) :
  nodup_keys ps = true -> nodup_keys (set_prop ps k v) = true.
Proof.
  induction ps as [|[k' v'] r IH]; intros H; [reflexivity|].
  rewrite nodup_keys_unfold in H. apply andb_prop in H as [H1 H2].
  cbn [set_prop]. destruct (String.eqb_spec k k') as [->|Hne].
  - rewrite nodup_keys_unfold, H1, H2. reflexivity.
  - rewrite nodup_keys_unfold, has_key_set_prop, IH by assumption.
    apply negb_true_iff in H1. rewrite H1.
    destruct (String.eqb_spec k' k); [congruence|reflexivity].
Qed.

Lemma nodup_keys_assign (ps acc : list (string * value)) :
  nodup_keys acc = true -> nodup_keys (fold_left assign ps acc) = true.
Proof.
  revert acc. induction ps as [|kv r IH]; intros acc H; simpl; auto.
  apply IH. apply nodup_keys_set_prop. exact H.
Qed.

Lemma bookToAdd_record (e : env) (newBook : value) (id : string) :
  is_record (bookToAdd e newBook id) = true.
Proof.
  unfold bookToAdd, is_record. repeat apply nodup_keys_set_prop.
  apply nodup_keys_assign. reflexivity.
Qed.

Lemma reviewToAdd_record (e : env) (newReview : value) :
  is_record (reviewToAdd e newReview) = true.
Proof.
  unfold reviewToAdd, is_record. repeat apply nodup_keys_set_prop.
  apply nodup_keys_assign. reflexivity.
Qed.

Lemma has_key_cons (k k' : string) (x : value) (r : list (string * value)) :
  has_key k ((k', x) :: r) = String.eqb k k' || has_key k r.
Proof. reflexivity. Qed.

Lemma has_key_json_props (k : string) (ps : list (string * value)) :
  has_key k (json_props ps) = true -> has_key k ps = true.
Proof.
  induction ps as [|[k' x] r IH]; [auto|].
  rewrite json_props_cons, has_key_cons.
  destruct x; rewrite ?has_key_cons; intros H;
    try (apply orb_true_iff in H as [H|H];
         [rewrite H; reflexivity | rewrite (IH H); apply orb_true_r]).
  rewrite (IH H). apply orb_true_r.
Qed.

Lemma nodup_keys_json_props (ps : list (string * value)) :
  nodup_keys ps = true -> nodup_keys (json_props ps) = true.
Proof.
  induction ps as [|[k x] r IH]; intros H; [reflexivity|].
  rewrite nodup_keys_unfold in H. apply andb_prop in H as [H1 H2].
  rewrite json_props_cons.
  assert (N : nodup_keys ((k, json_clone x) :: json_props r) = true).
  { rewrite nodup_keys_unfold, IH by assumption.
    destruct (has_key k (json_props r)) eqn:E; [|reflexivity].
    apply has_key_json_props in E. rewrite E in H1. discriminate. }
  destruct x; auto.
Qed.

Lemma json_element_record (x : value) :
  is_record x = true -> is_record (json_element x) = true.
Proof.
  destruct x; try discriminate. intros H.
  apply nodup_keys_json_props. exact H.
Qed.

Lemma records_after_push (l : list value) (x : value) :
  forallb is_record l = true -> is_record x = true ->
  forallb is_record (map json_element (l ++ [x])) = true.
Proof.
  intros Hl Hx. rewrite forallb_forall in *. intros y Hy.
  apply in_map_iff in Hy as (z & <- & Hz). apply json_element_record.
  apply in_app_or in Hz as [Hz|[<-|[]]]; auto.
Qed.

(** ** The files across requests *)

Lemma readonly_Array_filter (p : value -> M bool) (l : list value) :
  (forall x, readonly (p x)) -> readonly (Array_filter p l).
Proof.
  intros Hp. induction l as [|x r IH]; simpl; auto with readonly.
Qed.

Lemma readonly_Array_find (p : value -> M bool) (l : list value) :
  (forall x, readonly (p x)) -> readonly (Array_find p l).
Proof.
  intros Hp. induction l as [|x r IH]; simpl; auto with readonly.
  apply readonly_bind; auto. intros []; auto with readonly.
Qed.

#[local] Hint Resolve readonly_Array_filter readonly_Array_find : readonly.

Lemma readonly_if {A} (b : bool) (m1 m2 : M A) :
  readonly m1 -> readonly m2 -> readonly (if b then m1 else m2).
Proof. destruct b; auto. Qed.

#[local] Hint Resolve readonly_if : readonly.

(** The GET routes leave the files as they are. *)
Lemma get_routes_readonly (Date_parse : string -> number) (req : request)
      (d : disk) :
  snd (get_root req d) = d
  /\ snd (get_books req d) = d
  /\ snd (get_books_featured req d) = d
  /\ snd (get_books_date_range Date_parse req d) = d
  /\ snd (get_books_top_rated req d) = d
  /\ snd (get_book_by_id req d) = d
  /\ snd (get_reviews_by_book req d) = d.
Proof.
  split; [reflexivity|].
  repeat split; apply readonly_try_catch; unfold in_date_range;
    repeat (apply readonly_bind; [auto with readonly|intros ?]);
    auto 10 with readonly.
Qed.

(** ** Runs on the sample data *)


Lemma unauthorized_post_is_401_witness :
  bad_api_key (POST None new_book_body)
  /\ post_books sample_env (POST None new_book_body) sample_disk
     = (unauthorized, sample_disk)
  /\ post_reviews sample_env (POST None new_book_body) sample_disk
     = (unauthorized, sample_disk)
  /\ status unauthorized = 401.
Proof.
  split; [exact I|].
  apply (unauthorized_post_is_401 sample_env (POST None new_book_body)
           sample_disk).
  exact I.
Defined.

Lemma date_range_rejects_witness :
  num_gt (new_Date Date_parse_ISO (VStr "2021-01-01"))
         (new_Date Date_parse_ISO (VStr "2020-01-01")) = true
  /\ status (fst (get_books_date_range Date_parse_ISO
                    (GET (date_query "2021-01-01" "2020-01-01") [])
                    sample_disk)) = 400.
Proof.
  split; [reflexivity|].
  apply (date_range_rejects Date_parse_ISO
           (GET (date_query "2021-01-01" "2020-01-01") []) sample_disk).
  right. right. right. right. reflexivity.
Defined.


Lemma book_by_id_witness :
  get_book_by_id (GET [] [("id", "2")]) sample_disk
  = (json 200 [("success", VBool true);
               ("data", a_book "2" "Botany" (Fin 48 (-1)) 45 "2019-11-02")],
     sample_disk)
  /\ status (fst (get_book_by_id (GET [] [("id", "7")]) sample_disk)) = 404.
Proof.
  split.
  - destruct (proj1 (book_by_id (GET [] [("id", "2")]) sample_disk sample_books
                       "2" eq_refl eq_refl eq_refl)) as (b & F & _ & _ & R).
    + exists (a_book "2" "Botany" (Fin 48 (-1)) 45 "2019-11-02").
      split; [simpl; auto | reflexivity].
    + vm_compute in F. injection F as <-. exact R.
  - apply (proj2 (book_by_id (GET [] [("id", "7")]) sample_disk sample_books
                    "7" eq_refl eq_refl eq_refl)).
    intros b Hb. simpl in Hb.
    destruct Hb as [<-|[<-|[<-|[]]]]; discriminate.
Defined.

Lemma no_reviews_is_not_an_error_witness :
  status (fst (get_reviews_by_book (GET [] [("bookId", "2")]) sample_disk)) = 200
  /\ prop (body_sent (fst (get_reviews_by_book (GET [] [("bookId", "2")])
                             sample_disk))) "data" = VArr [].
Proof.
  destruct (no_reviews_is_not_an_error (GET [] [("bookId", "2")]) sample_disk
              sample_reviews "2" eq_refl eq_refl eq_refl)
    as (S & _ & _ & D & _).
  - intros r Hr. simpl in Hr.
    destruct Hr as [<-|[<-|[<-|[]]]]; discriminate.
  - split; assumption.
Defined.

Lemma falsy_required_field_is_400_witness :
  lookup "price" free_book_body = Some (VNum (num_of_Z 0))
  /\ status (fst (post_books sample_env (POST the_key free_book_body)
                    sample_disk)) = 400
  /\ lookup "rating" zero_review_body = Some (VNum (num_of_Z 0))
  /\ status (fst (post_reviews sample_env (POST the_key zero_review_body)
                    sample_disk)) = 400.
Proof.
  split; [reflexivity|]. split.
  - rewrite (proj1 (falsy_required_field_is_400 sample_env
                      (POST the_key free_book_body) sample_disk
                      free_book_body "price" (VNum (num_of_Z 0))
                      eq_refl eq_refl eq_refl eq_refl)).
    + reflexivity.
    + simpl. auto.
  - split; [reflexivity|].
    rewrite (proj2 (falsy_required_field_is_400 sample_env
                      (POST the_key zero_review_body) sample_disk
                      zero_review_body "rating" (VNum (num_of_Z 0))
                      eq_refl eq_refl eq_refl eq_refl)).
    + reflexivity.
    + simpl. auto.
Defined.






(** Why the ids must be numeric for the new one to be fresh: three books
    posted to an empty collection get the ids [-Infinity], [NaN] and [NaN]. *)
Example ids_from_an_empty_collection :
  ids_in (after Date_parse_ISO
            [PostBooks sample_env (POST the_key new_book_body);
             PostBooks sample_env (POST the_key new_book_body);
             PostBooks sample_env (POST the_key new_book_body)]
            empty_disk)
  = [VStr "-Infinity"; VStr "NaN"; VStr "NaN"].
Proof. reflexivity. Qed.

(** A body that brings its own [id] keeps it: the spread comes after the
    computed [id] in the object literal. *)
Example body_id_overrides :
  prop (bookToAdd sample_env (VObj (("id", VStr "1") :: new_book_body)) "4") "id"
  = VStr "1".
Proof. reflexivity. Qed.

Lemma create_review_witness :
  good_api_key (POST the_key new_review_body)
  /\ (forall b, In b sample_books -> prop b "id" <> VStr "no-such-book")
  /\ exists review d',
      post_reviews sample_env (POST the_key new_review_body) sample_disk
      = (json 201 [("success", VBool true);
                   ("message", VStr "Review added successfully!");
                   ("data", review)], d')
      /\ prop review "id" = VStr "review-123e4567-e89b-42d3-a456-426614174000"
      /\ prop review "timestamp" = VStr "2024-05-17T08:30:00.000Z"
      /\ prop review "verified" = VBool false.
Proof.
  split; [reflexivity|]. split.
  { intros b Hb. simpl in Hb.
    destruct Hb as [<-|[<-|[<-|[]]]]; discriminate. }
  destruct (proj2 (create_review sample_env (POST the_key new_review_body)
                     sample_disk new_review_body eq_refl eq_refl)
              eq_refl eq_refl sample_reviews eq_refl eq_refl)
    as (review & d' & R & Hid & Hts & Hv & _).
  exists review, d'. split; [exact R|]. split; [exact Hid|].
  split; [exact Hts|]. apply Hv. reflexivity.
Defined.

(** The claim of C5 fails on a review whose [rating] is there and is [0]:
    with a valid key and the four required fields present, the answer is
    400 and not 201. *)
Lemma create_review_counterexample :
  good_api_key (POST the_key zero_review_body)
  /\ present "bookId" (body (POST the_key zero_review_body))
  /\ present "author" (body (POST the_key zero_review_body))
  /\ present "rating" (body (POST the_key zero_review_body))
  /\ present "comment" (body (POST the_key zero_review_body))
  /\ status (fst (post_reviews sample_env (POST the_key zero_review_body)
                    sample_disk)) = 400
  /\ status (fst (post_reviews sample_env (POST the_key zero_review_body)
                    sample_disk)) <> 201.
Proof.
  split; [reflexivity|].
  do 4 (split; [eexists; eexists; split; reflexivity|]).
  split; [reflexivity|]. vm_compute. discriminate.
Qed.

(* ------------------------------------------------------------------ *)
(** * Further properties *)

(** ** Listing the books *)

Lemma get_books_run (req : request) (d : disk) (bs : list value) :
  collection (books_json d) "books" = Some bs ->
  get_books req d
  = (json 200 [("success", VBool true);
               ("count", VNum (num_of_nat (List.length bs)));
               ("data", VArr bs)], d).
Proof.
  intros Hc. destruct (read_books d bs Hc) as (ps & R & L).
  unfold get_books, try_catch. step R.
  unfold get at 1, prop at 1. rewrite L. reflexivity.
Qed.

(** X1.  [GET /api/books] answers 200 with the whole collection, in the
    order of the file, and with the number of its books (0 and an empty
    list for an empty collection); it asks nothing of the books
    themselves, and writes nothing. *)
Theorem all_books_listed (req : request) (d : disk) (bs : list value) :
  collection (books_json d) "books" = Some bs ->
  let res := fst (get_books req d) in
  status res = 200
  /\ prop (body_sent res) "success" = VBool true
  /\ prop (body_sent res) "count" = VNum (num_of_nat (List.length bs))
  /\ prop (body_sent res) "data" = VArr bs
  /\ snd (get_books req d) = d.
Proof.
  intros Hc. rewrite (get_books_run req d bs Hc). cbn. repeat split.
Qed.

Lemma all_books_listed_witness :
  collection (books_json sample_disk) "books" = Some sample_books
  /\ prop (body_sent (fst (get_books (GET [] []) sample_disk))) "count"
     = VNum (num_of_Z 3)
  /\ prop (body_sent (fst (get_books (GET [] []) sample_disk))) "data"
     = VArr sample_books.
Proof.
  split; [reflexivity|].
  destruct (all_books_listed (GET [] []) sample_disk sample_books eq_refl)
    as (_ & _ & C & D & _).
  split; [exact C | exact D].
Defined.

(** ** The featured books *)

Lemma is_featured_true (b : value) :
  is_featured b = true <-> prop b "featured" = VBool true.
Proof.
  unfold is_featured. destruct (prop b "featured") as [| |[]| | | |];
    simpl; split; congruence.
Qed.

Lemma featured_run (req : request) (d : disk) (bs : list value) :
  collection (books_json d) "books" = Some bs ->
  forallb is_record bs = true ->
  get_books_featured req d
  = (json 200 [("success", VBool true);
               ("count", VNum (num_of_nat (List.length (filter is_featured bs))));
               ("data", VArr (filter is_featured bs))], d).
Proof.
  intros Hc Hr. destruct (read_books d bs Hc) as (ps & R & L).
  unfold get_books_featured, try_catch. read_collection R L.
  rewrite (Array_filter_pure _ is_featured); [reflexivity|].
  apply records_Forall; auto.
Qed.

(** X2.  [GET /api/books/featured] answers 200 with exactly the books whose
    [featured] is the boolean [true], in the order of the collection, and
    with their count: a book whose flag is missing, or is anything else
    than [true] (the string ["true"], the number [1]), is left out. *)
Theorem featured_books_only (req : request) (d : disk) (bs : list value) :
  collection (books_json d) "books" = Some bs ->
  forallb is_record bs = true ->
  exists out,
    get_books_featured req d
    = (json 200 [("success", VBool true);
                 ("count", VNum (num_of_nat (List.length out)));
                 ("data", VArr out)], d)
    /\ out = filter is_featured bs
    /\ forall b, In b out <-> In b bs /\ prop b "featured" = VBool true.
Proof.
  intros Hc Hr. exists (filter is_featured bs).
  split; [apply featured_run; assumption|]. split; [reflexivity|].
  intros b. rewrite filter_In, is_featured_true. tauto.
Qed.

Lemma featured_books_only_witness :
  exists out,
    data_of (fst (get_books_featured (GET [] []) flagged_disk)) = Some out
    /\ map (fun b => prop b "id") out = [VStr "1"].
Proof.
  destruct (featured_books_only (GET [] []) flagged_disk flagged_books
              eq_refl eq_refl) as (out & R & E & _).
  exists out. rewrite R. split; [reflexivity|]. rewrite E. reflexivity.
Defined.

(** ** A file that cannot be read *)

Lemma try_catch_throws (m : M response) (error : string) (d d' : disk)
      (e : exn) :
  m d = (inl e, d') -> try_catch m error d = (failed error e, d').
Proof. unfold try_catch. intros ->. reflexivity. Qed.

Lemma bind_throws {A B} (m : M A) (f : A -> M B) (d d' : disk) (e : exn) :
  m d = (inl e, d') -> bind m f d = (inl e, d').
Proof. unfold bind. intros ->. reflexivity. Qed.

Lemma unreadable (d : disk) (msg : string) :
  contents (books_json d) = inl msg ->
  readJsonFile "books.json" d = (inl (Error msg), d).
Proof. unfold readJsonFile; simpl. intros ->. reflexivity. Qed.

(** Reading the collection of a file that does not hold one throws, and
    what was to follow does not run. *)
Lemma no_collection_throws {B} (d : disk) (name method : string)
      (k : list value -> M B) :
  collection (books_json d) "books" = None ->
  exists e,
    (booksData <- readJsonFile "books.json" ;;
     books <- get_array name booksData "books" method ;;
     k books) d = (inl e, d).
Proof.
  unfold collection, bind, readJsonFile; simpl.
  destruct (contents (books_json d)) as [msg|data]; [eauto|].
  unfold get_array, get, bind.
  destruct data as [| |b|n|s|l|ps]; simpl;
    try (intros _; eexists; reflexivity).
  destruct (lookup "books" ps) as [[| |b|n|s|l|qs]|];
    try discriminate; intros _; eexists; reflexivity.
Qed.

Lemma route_without_collection (d : disk) (name method error : string)
      (k : list value -> M response) :
  collection (books_json d) "books" = None ->
  exists e,
    try_catch (booksData <- readJsonFile "books.json" ;;
               books <- get_array name booksData "books" method ;;
               k books) error d
    = (failed error e, d).
Proof.
  intros Hc. destruct (no_collection_throws d name method k Hc) as (e & E).
  exists e. apply try_catch_throws. exact E.
Qed.

Section Unusable.

Variable Date_parse : string -> number.

(** X3.  When [books.json] cannot be read as an object whose [books] is an
    array (the file is missing or is not JSON, or the document has another
    shape), the routes that go through the collection answer 500 with
    [success: false] and write nothing: the featured, top-rated and by-id
    routes always, the date-range route once its dates are accepted. *)
Theorem no_collection_is_500 (req : request) (d : disk) :
  collection (books_json d) "books" = None ->
  let failure (r : response * disk) :=
    status (fst r) = 500
    /\ prop (body_sent (fst r)) "success" = VBool false
    /\ snd r = d in
  failure (get_books_featured req d)
  /\ failure (get_books_top_rated req d)
  /\ failure (get_book_by_id req d)
  /\ (truthy (req_query req "start") = true ->
      truthy (req_query req "end") = true ->
      num_le (new_Date Date_parse (req_query req "start"))
             (new_Date Date_parse (req_query req "end")) = true ->
      failure (get_books_date_range Date_parse req d)).
Proof.
  intros Hc failure. unfold failure.
  split; [|split; [|split]].
  - unfold get_books_featured.
    edestruct route_without_collection as (e & E); [exact Hc|].
    rewrite E. repeat split.
  - unfold get_books_top_rated.
    edestruct route_without_collection as (e & E); [exact Hc|].
    rewrite E. repeat split.
  - unfold get_book_by_id.
    edestruct route_without_collection as (e & E); [exact Hc|].
    rewrite E. repeat split.
  - intros Ts Te Hle. unfold get_books_date_range. rewrite Ts, Te.
    destruct (num_le_not_NaN _ _ Hle) as [Ns Ne]. rewrite Ns, Ne.
    rewrite (num_le_not_gt _ _ Hle). cbn [negb orb].
    edestruct route_without_collection as (e & E); [exact Hc|].
    rewrite E. repeat split.
Qed.

End Unusable.

Lemma no_collection_is_500_witness :
  collection (books_json unreadable_disk) "books" = None
  /\ status (fst (get_books_top_rated (GET [] []) unreadable_disk)) = 500
  /\ status (fst (get_book_by_id (GET [] [("id", "1")]) unreadable_disk)) = 500
  /\ status (fst (get_books_date_range Date_parse_ISO
                    (GET (date_query "2020-01-01" "2020-12-31") [])
                    unreadable_disk)) = 500.
Proof.
  split; [reflexivity|].
  split; [apply (no_collection_is_500 Date_parse_ISO (GET [] [])
                   unreadable_disk eq_refl)|].
  split; [apply (no_collection_is_500 Date_parse_ISO (GET [] [("id", "1")])
                   unreadable_disk eq_refl)|].
  apply (no_collection_is_500 Date_parse_ISO
           (GET (date_query "2020-01-01" "2020-12-31") [])
           unreadable_disk eq_refl); reflexivity.
Defined.

Lemma unreadable_reviews (d : disk) (msg : string) :
  contents (reviews_json d) = inl msg ->
  readJsonFile "reviews.json" d = (inl (Error msg), d).
Proof. unfold readJsonFile; simpl. intros ->. reflexivity. Qed.

Lemma route_read_error (d : disk) (msg error : string)
      (k : value -> M response) :
  contents (books_json d) = inl msg ->
  try_catch (booksData <- readJsonFile "books.json" ;; k booksData) error d
  = (failed error (Error msg), d).
Proof.
  intros H. apply try_catch_throws, bind_throws, unreadable. exact H.
Qed.

(** X4.  The message of the error that reading a file throws is sent back
    as it is: when [books.json] cannot be read, the routes that list, filter,
    rank and look up books answer 500 with their own [error] text and that
    [message]; when [reviews.json] cannot be read, so does the reviews
    route. *)
Theorem read_error_is_reported (req : request) (d : disk) (msg : string) :
  (contents (books_json d) = inl msg ->
   get_books req d
   = (json 500 [("success", VBool false);
                ("error", VStr "Failed to retrieve books");
                ("message", VStr msg)], d)
   /\ get_books_featured req d
      = (json 500 [("success", VBool false);
                   ("error", VStr "Failed to retrieve featured books");
                   ("message", VStr msg)], d)
   /\ get_books_top_rated req d
      = (json 500 [("success", VBool false);
                   ("error", VStr "Failed to retrieve top rated books");
                   ("message", VStr msg)], d)
   /\ get_book_by_id req d
      = (json 500 [("success", VBool false);
                   ("error", VStr "Failed to retrieve book");
                   ("message", VStr msg)], d))
  /\ (contents (reviews_json d) = inl msg ->
      get_reviews_by_book req d
      = (json 500 [("success", VBool false);
                   ("error", VStr "Failed to retrieve reviews for the book");
                   ("message", VStr msg)], d)).
Proof.
  split.
  - intros H. repeat split.
    + unfold get_books. rewrite (route_read_error d msg _ _ H). reflexivity.
    + unfold get_books_featured.
      rewrite (route_read_error d msg _ _ H). reflexivity.
    + unfold get_books_top_rated.
      rewrite (route_read_error d msg _ _ H). reflexivity.
    + unfold get_book_by_id.
      rewrite (route_read_error d msg _ _ H). reflexivity.
  - intros H. unfold get_reviews_by_book.
    rewrite (try_catch_throws _ _ d d (Error msg)); [reflexivity|].
    apply bind_throws, unreadable_reviews. exact H.
Qed.

Lemma read_error_is_reported_witness :
  prop (body_sent (fst (get_books (GET [] []) unreadable_disk))) "message"
  = VStr "Unexpected end of JSON input"
  /\ status (fst (get_books (GET [] []) unreadable_disk)) = 500.
Proof.
  destruct (read_error_is_reported (GET [] []) unreadable_disk
              "Unexpected end of JSON input") as [H _].
  destruct (H eq_refl) as (R & _). rewrite R. split; reflexivity.
Defined.

(** ** The reviews of a book *)

Lemma has_bookId_true (id : string) (r : value) :
  has_bookId id r = true <-> prop r "bookId" = VStr id.
Proof.
  unfold has_bookId. destruct (prop r "bookId"); simpl; split; try discriminate.
  - intros H. apply String.eqb_eq in H. congruence.
  - intros [= ->]. apply String.eqb_refl.
Qed.

Lemma reviews_run (req : request) (d : disk) (rs : list value) (id : string) :
  assoc "bookId" (params req) = Some id ->
  collection (reviews_json d) "reviews" = Some rs ->
  forallb is_record rs = true ->
  get_reviews_by_book req d
  = (match filter (has_bookId id) rs with
     | [] => json 200 [("success", VBool true);
                       ("message", VStr ("No reviews found for book with ID: " ++ id));
                       ("count", VNum (num_of_Z 0));
                       ("data", VArr [])]
     | found => json 200 [("success", VBool true);
                          ("count", VNum (num_of_nat (List.length found)));
                          ("data", VArr found)]
     end, d).
Proof.
  intros Hid Hc Hr. unfold get_reviews_by_book, try_catch, req_param.
  rewrite Hid. destruct (read_reviews d rs Hc) as (ps & R & L).
  read_collection R L.
  rewrite (Array_filter_pure _ (has_bookId id)) by (apply records_Forall; auto).
  destruct (filter (has_bookId id) rs); reflexivity.
Qed.

(** X5.  [GET /api/reviews/book/:bookId] answers 200 with exactly the
    reviews whose [bookId] is the string of the path, in the order of the
    file, and with their count; a review whose [bookId] is not that string
    (the number [1] for the path [1]) is not among them. *)
Theorem reviews_of_a_book (req : request) (d : disk) (rs : list value)
        (id : string) :
  assoc "bookId" (params req) = Some id ->
  collection (reviews_json d) "reviews" = Some rs ->
  forallb is_record rs = true ->
  let res := fst (get_reviews_by_book req d) in
  status res = 200
  /\ prop (body_sent res) "success" = VBool true
  /\ prop (body_sent res) "data" = VArr (filter (has_bookId id) rs)
  /\ prop (body_sent res) "count"
     = VNum (num_of_nat (List.length (filter (has_bookId id) rs)))
  /\ (forall r, In r (filter (has_bookId id) rs)
                <-> In r rs /\ prop r "bookId" = VStr id)
  /\ snd (get_reviews_by_book req d) = d.
Proof.
  intros Hid Hc Hr. rewrite (reviews_run req d rs id Hid Hc Hr).
  cbn [fst snd].
  assert (I : forall r, In r (filter (has_bookId id) rs)
                        <-> In r rs /\ prop r "bookId" = VStr id).
  { intros r. rewrite filter_In, has_bookId_true. tauto. }
  destruct (filter (has_bookId id) rs);
    do 4 (split; [reflexivity|]); (split; [exact I|reflexivity]).
Qed.

Lemma reviews_of_a_book_witness :
  prop (body_sent (fst (get_reviews_by_book (GET [] [("bookId", "1")])
                          sample_disk))) "data"
  = VArr [a_review "review-1" "1" 5; a_review "review-2" "1" 4]
  /\ prop (body_sent (fst (get_reviews_by_book (GET [] [("bookId", "1")])
                             sample_disk))) "count"
     = VNum (num_of_Z 2).
Proof.
  destruct (reviews_of_a_book (GET [] [("bookId", "1")]) sample_disk
              sample_reviews "1" eq_refl eq_refl eq_refl)
    as (_ & _ & D & C & _).
  split; [exact D | exact C].
Defined.

(** ** Which statuses a route answers *)

Lemma bind_returns {A B} (m : M A) (f : A -> M B) (d d' : disk) (y : B) :
  bind m f d = (inr y, d') ->
  exists x d1, m d = (inr x, d1) /\ f x d1 = (inr y, d').
Proof.
  unfold bind. destruct (m d) as [[e|x] d1]; [discriminate|]. eauto.
Qed.

Lemma try_catch_status (m : M response) (error : string) (d : disk)
      (allowed : list Z) :
  In 500 allowed ->
  (forall r d', m d = (inr r, d') -> In (status r) allowed) ->
  In (status (fst (try_catch m error d))) allowed.
Proof.
  intros H500 H. unfold try_catch.
  destruct (m d) as [[e|r] d'] eqn:E; [exact H500|]. apply (H r d' eq_refl).
Qed.

(** Follows a run that returned through its steps, down to the response. *)
Ltac returned :=
  repeat match goal with
         | H : bind _ _ _ = (inr _, _) |- _ =>
             apply bind_returns in H as (? & ? & _ & H)
         | H : (if ?b then _ else _) _ = (inr _, _) |- _ => destruct b
         | H : ret _ _ = (inr _, _) |- _ =>
             unfold ret in H; injection H as <- _
         | H : _ = (inr _, _) |- _ => progress cbv beta zeta in H
         end.

Ltac one_of_its_statuses :=
  apply try_catch_status; [simpl; tauto|];
  intros r d' Run; returned; simpl; tauto.

Lemma key_is_good_or_bad (req : request) :
  {good_api_key req} + {bad_api_key req}.
Proof.
  unfold good_api_key, bad_api_key.
  destruct (assoc "x-api-key" (headers req)) as [k|]; [|right; exact I].
  destruct (string_dec k "amana-secret-key-12345") as [->|N];
    [left; reflexivity | right; exact N].
Defined.

Lemma good_key_is_not_bad (req : request) :
  good_api_key req -> ~ bad_api_key req.
Proof. unfold good_api_key, bad_api_key. intros -> H. apply H. reflexivity. Qed.

Lemma post_books_route_status (e : env) (req : request) (d : disk) :
  good_api_key req ->
  In (status (fst (post_books e req d))) [201; 400; 500].
Proof.
  intros Hk. unfold post_books. rewrite authenticateKey_accepts by assumption.
  one_of_its_statuses.
Qed.

Lemma post_reviews_route_status (e : env) (req : request) (d : disk) :
  good_api_key req ->
  In (status (fst (post_reviews e req d))) [201; 400; 500].
Proof.
  intros Hk. unfold post_reviews. rewrite authenticateKey_accepts by assumption.
  one_of_its_statuses.
Qed.

Section Statuses.

Variable Date_parse : string -> number.

(** X6.  Each route answers with one of its own statuses only: 200 or 500
    for the listing, featured, top-rated and reviews routes, 200, 400 or
    500 for the date-range route, 200, 404 or 500 for the by-id route, and
    201, 400, 401 or 500 for the two POST routes, 401 being answered exactly
    when the API key is absent or wrong. *)
Theorem statuses_of_the_routes (e : env) (req : request) (d : disk) :
  In (status (fst (get_books req d))) [200; 500]
  /\ In (status (fst (get_books_featured req d))) [200; 500]
  /\ In (status (fst (get_books_top_rated req d))) [200; 500]
  /\ In (status (fst (get_reviews_by_book req d))) [200; 500]
  /\ In (status (fst (get_books_date_range Date_parse req d))) [200; 400; 500]
  /\ In (status (fst (get_book_by_id req d))) [200; 404; 500]
  /\ In (status (fst (post_books e req d))) [201; 400; 401; 500]
  /\ In (status (fst (post_reviews e req d))) [201; 400; 401; 500]
  /\ (status (fst (post_books e req d)) = 401 <-> bad_api_key req)
  /\ (status (fst (post_reviews e req d)) = 401 <-> bad_api_key req).
Proof.
  repeat (split; [one_of_its_statuses|]).
  destruct (key_is_good_or_bad req) as [G|B].
  - pose proof (post_books_route_status e req d G) as Hb.
    pose proof (post_reviews_route_status e req d G) as Hr.
    pose proof (good_key_is_not_bad req G) as N.
    cbn [In] in Hb, Hr |- *.
    split; [tauto|]. split; [tauto|].
    split; (split; [intros H | intros H; contradiction (N H)]).
    + rewrite H in Hb. lia.
    + rewrite H in Hr. lia.
  - unfold post_books, post_reviews.
    rewrite !authenticateKey_rejects by assumption. cbn. tauto.
Qed.

End Statuses.

(** ** What a POST writes *)

(** Runs, in the run [E] of a handler on the files [d], the next step of the
    computation, which leaves the files as they are ([RO]); where the step
    throws, the goal is left with the answer of the [catch]. *)
Ltac run_readonly E d RO :=
  match type of E with
  | context [bind ?m _ d] =>
      let Q := fresh "Q" in
      let R := fresh "R" in
      let d1 := fresh "d" in
      pose proof (RO d) as Q; unfold bind at 1 in E;
      destruct (m d) as [[?|?] d1] eqn:R; cbn [snd] in Q; subst d1; clear R
  end.

Lemma writeJsonFile_outcome (filename : string) (data : value) (d : disk) :
  (exists e, writeJsonFile filename data d = (inl e, d))
  \/ writeJsonFile filename data d
     = (inr tt, store d filename (json_clone data))
  \/ (exists f w, file_named d filename = Some f /\ write_error f = Some w
                  /\ writeJsonFile filename data d
                     = (inl (Error (thrown w)), spoil d filename w)).
Proof.
  unfold writeJsonFile. destruct (file_named d filename) as [f|]; [|eauto].
  destruct (write_error f) as [w|] eqn:W; [|eauto].
  right. right. exists f, w. auto.
Qed.

Lemma spoil_other_file (d : disk) (w : write_failure) :
  reviews_json (spoil d "books.json" w) = reviews_json d
  /\ books_json (spoil d "reviews.json" w) = books_json d.
Proof. split; reflexivity. Qed.

Lemma store_other_file (d : disk) (v : value) :
  reviews_json (store d "books.json" v) = reviews_json d
  /\ books_json (store d "reviews.json" v) = books_json d.
Proof. split; reflexivity. Qed.

Lemma readonly_read_id (b : value) :
  readonly (id <- get b "id" ;; ret (parseInt id)).
Proof. auto with readonly. Qed.

(** What the route of [POST /api/books] does to the files: nothing, unless
    it answers 201 and then it has stored [books.json], or its write has
    failed and then it answers 500. *)
Lemma post_books_outcome (e : env) (req : request) (d d' : disk)
      (r : response) :
  post_books e req d = (r, d') ->
  (status r <> 201 /\ d' = d)
  \/ (status r = 201 /\ exists v, d' = store d "books.json" v)
  \/ (status r = 500
      /\ exists w, write_error (books_json d) = Some w
                   /\ d' = spoil d "books.json" w).
Proof.
  unfold post_books.
  destruct (key_is_good_or_bad req) as [G|B];
    [rewrite authenticateKey_accepts by assumption
    |rewrite authenticateKey_rejects by assumption;
     intros [= <- <-]; left; split; [discriminate|reflexivity]].
  unfold try_catch. intros E.
  run_readonly E d (readonly_get (body req) "title");
    [injection E as <- <-; left; split; [discriminate|reflexivity]|].
  run_readonly E d (readonly_get (body req) "author");
    [injection E as <- <-; left; split; [discriminate|reflexivity]|].
  run_readonly E d (readonly_get (body req) "price");
    [injection E as <- <-; left; split; [discriminate|reflexivity]|].
  destruct (negb (truthy v) || negb (truthy v0) || negb (truthy v1));
    [injection E as <- <-; left; split; [discriminate|reflexivity]|].
  run_readonly E d (readonly_readJsonFile "books.json");
    [injection E as <- <-; left; split; [discriminate|reflexivity]|].
  run_readonly E d (readonly_get_array "booksData" v2 "books" "map");
    [injection E as <- <-; left; split; [discriminate|reflexivity]|].
  match type of E with
  | context [bind (Array_map ?f ?l) _ d] =>
      run_readonly E d (readonly_Array_map f l readonly_read_id)
  end;
    [injection E as <- <-; left; split; [discriminate|reflexivity]|].
  unfold bind at 1 in E.
  match type of E with
  | context [writeJsonFile ?f ?v d] =>
      destruct (writeJsonFile_outcome f v d)
        as [(err & W)|[W|(f' & w & F & Hw & W)]]; rewrite W in E
  end; injection E as <- <-.
  - left. split; [discriminate|reflexivity].
  - right. left. split; [reflexivity|]. eexists. reflexivity.
  - right. right. split; [reflexivity|].
    injection F as <-. exists w. split; [exact Hw|reflexivity].
Qed.

Lemma post_reviews_outcome (e : env) (req : request) (d d' : disk)
      (r : response) :
  post_reviews e req d = (r, d') ->
  (status r <> 201 /\ d' = d)
  \/ (status r = 201 /\ exists v, d' = store d "reviews.json" v)
  \/ (status r = 500
      /\ exists w, write_error (reviews_json d) = Some w
                   /\ d' = spoil d "reviews.json" w).
Proof.
  unfold post_reviews.
  destruct (key_is_good_or_bad req) as [G|B];
    [rewrite authenticateKey_accepts by assumption
    |rewrite authenticateKey_rejects by assumption;
     intros [= <- <-]; left; split; [discriminate|reflexivity]].
  unfold try_catch. intros E.
  run_readonly E d (readonly_get (body req) "bookId");
    [injection E as <- <-; left; split; [discriminate|reflexivity]|].
  run_readonly E d (readonly_get (body req) "author");
    [injection E as <- <-; left; split; [discriminate|reflexivity]|].
  run_readonly E d (readonly_get (body req) "rating");
    [injection E as <- <-; left; split; [discriminate|reflexivity]|].
  run_readonly E d (readonly_get (body req) "comment");
    [injection E as <- <-; left; split; [discriminate|reflexivity]|].
  destruct (negb (truthy v) || negb (truthy v0) || negb (truthy v1)
            || negb (truthy v2));
    [injection E as <- <-; left; split; [discriminate|reflexivity]|].
  run_readonly E d (readonly_readJsonFile "reviews.json");
    [injection E as <- <-; left; split; [discriminate|reflexivity]|].
  cbv zeta in E.
  run_readonly E d (readonly_get_array "reviewsData" v3 "reviews" "push");
    [injection E as <- <-; left; split; [discriminate|reflexivity]|].
  unfold bind at 1 in E.
  match type of E with
  | context [writeJsonFile ?f ?v d] =>
      destruct (writeJsonFile_outcome f v d)
        as [(err & W)|[W|(f' & w & F & Hw & W)]]; rewrite W in E
  end; injection E as <- <-.
  - left. split; [discriminate|reflexivity].
  - right. left. split; [reflexivity|]. eexists. reflexivity.
  - right. right. split; [reflexivity|].
    injection F as <-. exists w. split; [exact Hw|reflexivity].
Qed.

(** X7.  A POST that is answered 400 or 401 has written nothing: both
    files are as they were.  So has one that is answered anything but 201
    when its file takes writes: a file is changed only by a 201, or by a
    write that was attempted and failed (answered 500).  In every case a
    POST leaves the file of the other route as it was:
    [POST /api/books] never changes [reviews.json], and
    [POST /api/reviews] never changes [books.json]. *)
Theorem post_writes_only_on_201 (e : env) (req : request) (d : disk) :
  (In (status (fst (post_books e req d))) [400; 401] ->
   snd (post_books e req d) = d)
  /\ (status (fst (post_books e req d)) <> 201 ->
      write_error (books_json d) = None ->
      snd (post_books e req d) = d)
  /\ reviews_json (snd (post_books e req d)) = reviews_json d
  /\ (In (status (fst (post_reviews e req d))) [400; 401] ->
      snd (post_reviews e req d) = d)
  /\ (status (fst (post_reviews e req d)) <> 201 ->
      write_error (reviews_json d) = None ->
      snd (post_reviews e req d) = d)
  /\ books_json (snd (post_reviews e req d)) = books_json d.
Proof.
  destruct (post_books e req d) as [rb db] eqn:Eb.
  destruct (post_reviews e req d) as [rr dr] eqn:Er.
  apply post_books_outcome in Eb. apply post_reviews_outcome in Er.
  cbn [fst snd In].
  assert (Books :
            ((400 = status rb \/ 401 = status rb \/ False) -> db = d)
            /\ (status rb <> 201 -> write_error (books_json d) = None ->
                db = d)
            /\ reviews_json db = reviews_json d).
  { destruct Eb as [[N ->]|[[S (v & ->)]|[S (w & W & ->)]]].
    - repeat split.
    - repeat split; intros; try reflexivity; try congruence.
      destruct H as [H|[H|[]]]; congruence.
    - repeat split; intros; try reflexivity; try congruence.
      destruct H as [H|[H|[]]]; congruence. }
  assert (Reviews :
            ((400 = status rr \/ 401 = status rr \/ False) -> dr = d)
            /\ (status rr <> 201 -> write_error (reviews_json d) = None ->
                dr = d)
            /\ books_json dr = books_json d).
  { destruct Er as [[N ->]|[[S (v & ->)]|[S (w & W & ->)]]].
    - repeat split.
    - repeat split; intros; try reflexivity; try congruence.
      destruct H as [H|[H|[]]]; congruence.
    - repeat split; intros; try reflexivity; try congruence.
      destruct H as [H|[H|[]]]; congruence. }
  destruct Books as (B1 & B2 & B3). destruct Reviews as (R1 & R2 & R3).
  repeat split; assumption.
Qed.

Lemma post_writes_only_on_201_witness :
  In (status (fst (post_books sample_env (POST the_key free_book_body)
                     full_disk))) [400; 401]
  /\ snd (post_books sample_env (POST the_key free_book_body) full_disk)
     = full_disk
  /\ status (fst (post_reviews sample_env (POST the_key new_review_body)
                    unreadable_reviews_disk)) <> 201
  /\ snd (post_reviews sample_env (POST the_key new_review_body)
            unreadable_reviews_disk) = unreadable_reviews_disk
  /\ reviews_json (snd (post_books sample_env (POST the_key new_book_body)
                          full_disk))
     = reviews_json full_disk.
Proof.
  destruct (post_writes_only_on_201 sample_env (POST the_key free_book_body)
              full_disk) as (H & _).
  destruct (post_writes_only_on_201 sample_env (POST the_key new_review_body)
              unreadable_reviews_disk) as (_ & _ & _ & _ & N & _).
  destruct (post_writes_only_on_201 sample_env (POST the_key new_book_body)
              full_disk) as (_ & _ & K & _).
  assert (S : In (status (fst (post_books sample_env
                                 (POST the_key free_book_body) full_disk)))
                 [400; 401]) by (left; reflexivity).
  assert (S' : status (fst (post_reviews sample_env
                              (POST the_key new_review_body)
                              unreadable_reviews_disk)) <> 201)
    by (vm_compute; discriminate).
  split; [exact S|]. split; [exact (H S)|].
  split; [exact S'|]. split; [exact (N S' eq_refl)|exact K].
Defined.

(** ** The record of a new book *)







(** ** A body that brings its own [id] *)



(** ** A file that cannot be written *)




(** ** The record of a new review *)

(** X12.  A new review keeps what its body gives, except the time: every
    field of the body other than [timestamp] and [verified] is stored as
    it is, a [verified] that is given is kept (also [false] or [null]), and
    [timestamp] is the time of creation even when the body has one. *)
Theorem new_review_keeps_the_body (e : env) (req : request) (d : disk)
        (ps : list (string * value)) (rs : list value) :
  good_api_key req ->
  body req = VObj ps ->
  nodup_keys ps = true ->
  truthy (prop (VObj ps) "bookId") && truthy (prop (VObj ps) "author")
    && truthy (prop (VObj ps) "rating") && truthy (prop (VObj ps) "comment")
  = true ->
  collection (reviews_json d) "reviews" = Some rs ->
  write_error (reviews_json d) = None ->
  exists review d',
    post_reviews e req d
    = (json 201 [("success", VBool true);
                 ("message", VStr "Review added successfully!");
                 ("data", review)], d')
    /\ (forall k v, lookup k ps = Some v -> k <> "timestamp" ->
                    k <> "verified" -> prop review k = v)
    /\ (forall v, lookup "verified" ps = Some v -> v <> VUndefined ->
                  prop review "verified" = v)
    /\ prop review "timestamp" = VStr (now_ISO e).
Proof.
  intros Hk Hb Hn Ht Hc Hw.
  destruct (post_reviews_creates e req d ps rs Hk Hb Ht Hc Hw) as (fs & Run).
  eexists. eexists. split; [exact Run|].
  split; [|split].
  - intros k v Hl N1 N2. unfold reviewToAdd, prop. rewrite !lookup_set_prop.
    destruct (String.eqb_spec k "verified"); [contradiction|].
    destruct (String.eqb_spec k "timestamp"); [contradiction|].
    unfold spread. cbn [own_props]. rewrite lookup_assign by assumption.
    rewrite Hl. reflexivity.
  - intros v Hl Hv. unfold reviewToAdd. unfold prop at 1.
    rewrite !lookup_set_prop. cbn [String.eqb Ascii.eqb Bool.eqb].
    unfold prop. rewrite Hl. destruct v; try reflexivity; congruence.
  - apply reviewToAdd_timestamp.
Qed.

(** ** Records of JSON, written and read back *)

Lemma json_clone_id : forall v, is_json v = true -> json_clone v = v.
Proof.
  fix IH 1. intros [| |b|n|s|l|ps] H; try reflexivity.
  - cbn [is_json] in H. cbn [json_clone].
    destruct (binary64 n); try discriminate. reflexivity.
  - cbn [json_clone]. f_equal. cbn [is_json] in H.
    induction l as [|x r IHr]; [reflexivity|].
    cbn [forallb] in H. apply andb_prop in H as [Hx Hr].
    cbn [map]. rewrite (IHr Hr). f_equal.
    pose proof (IH x Hx) as Ex.
    destruct x; try discriminate; exact Ex.
  - rewrite json_clone_object. f_equal. cbn [is_json] in H.
    induction ps as [|[k x] r IHr]; [reflexivity|].
    cbn [forallb snd] in H. apply andb_prop in H as [Hx Hr].
    pose proof (IH x Hx) as Ex.
    rewrite json_props_cons, (IHr Hr).
    destruct x; try discriminate; rewrite Ex; reflexivity.
Qed.

Lemma json_element_id (v : value) : is_json v = true -> json_element v = v.
Proof.
  intros H. unfold json_element. rewrite (json_clone_id v H).
  destruct v; try reflexivity; discriminate.
Qed.

Lemma json_elements_id (l : list value) :
  forallb is_json l = true -> map json_element l = l.
Proof.
  induction l as [|x r IH]; [reflexivity|]. cbn [forallb map].
  intros H. apply andb_prop in H as [Hx Hr].
  rewrite (json_element_id x Hx), (IH Hr). reflexivity.
Qed.

Lemma json_fields_set_prop (ps : list (string * value)) (k : string)
      (v : value) :
  json_fields ps = true -> is_json v = true ->
  json_fields (set_prop ps k v) = true.
Proof.
  unfold json_fields. intros Hps Hv.
  induction ps as [|[k' v'] r IH]; cbn [set_prop forallb snd].
  - rewrite Hv. reflexivity.
  - cbn [forallb snd] in Hps. apply andb_prop in Hps as [H1 H2].
    destruct (String.eqb k k'); cbn [forallb snd].
    + rewrite Hv, H2. reflexivity.
    + rewrite H1, (IH H2). reflexivity.
Qed.

Lemma json_fields_assign (ps acc : list (string * value)) :
  json_fields ps = true -> json_fields acc = true ->
  json_fields (fold_left assign ps acc) = true.
Proof.
  revert acc. induction ps as [|[k v] r IH]; intros acc Hps Hacc; [exact Hacc|].
  unfold json_fields in Hps. cbn [forallb snd] in Hps.
  apply andb_prop in Hps as [Hv Hr].
  cbn [fold_left]. apply IH; [exact Hr|].
  apply json_fields_set_prop; assumption.
Qed.

Lemma json_fields_prop (ps : list (string * value)) (k : string) :
  json_fields ps = true ->
  prop (VObj ps) k = VUndefined \/ is_json (prop (VObj ps) k) = true.
Proof.
  unfold prop, json_fields. induction ps as [|[k' v] r IH]; [left; reflexivity|].
  cbn [forallb snd lookup]. intros H. apply andb_prop in H as [Hv Hr].
  destruct (String.eqb k k'); [right; exact Hv | exact (IH Hr)].
Qed.

Lemma json_or_else (ps : list (string * value)) (k : string) (dflt : value) :
  json_fields ps = true -> is_json dflt = true ->
  is_json (or_else (prop (VObj ps) k) dflt) = true
  /\ is_json (defined_or (prop (VObj ps) k) dflt) = true.
Proof.
  intros Hps Hd. unfold or_else, defined_or.
  destruct (json_fields_prop ps k Hps) as [->|H]; [split; exact Hd|].
  split.
  - destruct (truthy (prop (VObj ps) k)); assumption.
  - destruct (prop (VObj ps) k); try discriminate; exact H.
Qed.

Lemma bookToAdd_json (e : env) (ps : list (string * value)) (id : string) :
  json_fields ps = true -> is_json (bookToAdd e (VObj ps) id) = true.
Proof.
  intros Hps. unfold bookToAdd. cbn [is_json]. fold (json_fields).
  repeat (apply json_fields_set_prop;
          [|apply json_or_else; [exact Hps|reflexivity]]).
  unfold spread. cbn [own_props].
  apply json_fields_assign; [exact Hps|reflexivity].
Qed.

Lemma reviewToAdd_json (e : env) (ps : list (string * value)) :
  json_fields ps = true -> is_json (reviewToAdd e (VObj ps)) = true.
Proof.
  intros Hps. unfold reviewToAdd. cbn [is_json]. fold (json_fields).
  apply json_fields_set_prop;
    [|apply json_or_else; [exact Hps|reflexivity]].
  apply json_fields_set_prop; [|reflexivity].
  unfold spread. cbn [own_props].
  apply json_fields_assign; [exact Hps|reflexivity].
Qed.

(** ** A new book, looked up and listed *)



Lemma forallb_app_one {A} (p : A -> bool) (l : list A) (x : A) :
  forallb p l = true -> p x = true -> forallb p (l ++ [x]) = true.
Proof.
  intros Hl Hx. rewrite forallb_app, Hl. cbn. rewrite Hx. reflexivity.
Qed.




(** ** A new review, listed *)

Lemma post_reviews_appends (e : env) (req : request) (d : disk)
      (ps : list (string * value)) (rs : list value) :
  good_api_key req ->
  body req = VObj ps ->
  json_fields ps = true ->
  truthy (prop (VObj ps) "bookId") && truthy (prop (VObj ps) "author")
    && truthy (prop (VObj ps) "rating") && truthy (prop (VObj ps) "comment")
  = true ->
  collection (reviews_json d) "reviews" = Some rs ->
  forallb is_record rs = true ->
  forallb is_json rs = true ->
  write_error (reviews_json d) = None ->
  let review := reviewToAdd e (VObj ps) in
  fst (post_reviews e req d)
  = json 201 [("success", VBool true);
              ("message", VStr "Review added successfully!");
              ("data", review)]
  /\ collection (reviews_json (snd (post_reviews e req d))) "reviews"
     = Some (rs ++ [review])
  /\ forallb is_record (rs ++ [review]) = true
  /\ forallb is_json (rs ++ [review]) = true.
Proof.
  intros Hk Hb Hj Ht Hc Hr Hjs Hw review.
  destruct (post_reviews_creates e req d ps rs Hk Hb Ht Hc Hw) as (fs & Run).
  fold review in Run. rewrite Run. cbn [fst snd].
  assert (Jb : is_json review = true) by (apply reviewToAdd_json; exact Hj).
  assert (Rb : is_record review = true) by apply reviewToAdd_record.
  assert (Js : forallb is_json (rs ++ [review]) = true)
    by (apply forallb_app_one; assumption).
  split; [reflexivity|]. split.
  - rewrite stored_reviews, (json_elements_id _ Js). reflexivity.
  - split; [apply forallb_app_one; assumption | exact Js].
Qed.

Lemma reviewToAdd_bookId (e : env) (ps : list (string * value)) :
  nodup_keys ps = true ->
  prop (reviewToAdd e (VObj ps)) "bookId" = prop (VObj ps) "bookId".
Proof.
  intros Hn. unfold reviewToAdd, prop. rewrite !lookup_set_prop.
  cbn [String.eqb Ascii.eqb Bool.eqb].
  unfold spread. cbn [own_props]. rewrite lookup_assign by assumption.
  destruct (lookup "bookId" ps); reflexivity.
Qed.

(** X15.  A review that was created is there: after [POST /api/reviews]
    has answered 201 for a body whose [bookId] is a string,
    [GET /api/reviews/book/:bookId] for that string returns the reviews of
    the book that were there, in their order, followed by the very record
    of the answer, and counts one more. *)
Theorem created_review_is_listed (e : env) (req list_req : request)
        (d : disk) (ps : list (string * value)) (rs : list value)
        (bookId : string) :
  good_api_key req ->
  body req = VObj ps ->
  nodup_keys ps = true ->
  json_fields ps = true ->
  prop (VObj ps) "bookId" = VStr bookId ->
  truthy (prop (VObj ps) "bookId") && truthy (prop (VObj ps) "author")
    && truthy (prop (VObj ps) "rating") && truthy (prop (VObj ps) "comment")
  = true ->
  collection (reviews_json d) "reviews" = Some rs ->
  forallb is_record rs = true ->
  forallb is_json rs = true ->
  write_error (reviews_json d) = None ->
  assoc "bookId" (params list_req) = Some bookId ->
  exists review,
    fst (post_reviews e req d)
    = json 201 [("success", VBool true);
                ("message", VStr "Review added successfully!");
                ("data", review)]
    /\ fst (get_reviews_by_book list_req (snd (post_reviews e req d)))
       = json 200
           [("success", VBool true);
            ("count",
             VNum (num_of_nat (S (List.length (filter (has_bookId bookId) rs)))));
            ("data", VArr (filter (has_bookId bookId) rs ++ [review]))].
Proof.
  intros Hk Hb Hn Hj Hbid Ht Hc Hr Hjs Hw Hp.
  destruct (post_reviews_appends e req d ps rs Hk Hb Hj Ht Hc Hr Hjs Hw)
    as (R & C & Rs & _).
  exists (reviewToAdd e (VObj ps)). split; [exact R|].
  rewrite (reviews_run list_req _ _ bookId Hp C Rs). cbn [fst].
  assert (F : filter (has_bookId bookId) (rs ++ [reviewToAdd e (VObj ps)])
              = filter (has_bookId bookId) rs ++ [reviewToAdd e (VObj ps)]).
  { rewrite filter_app. cbn [filter].
    replace (has_bookId bookId (reviewToAdd e (VObj ps))) with true;
      [reflexivity|].
    symmetry. apply has_bookId_true.
    rewrite reviewToAdd_bookId by assumption. exact Hbid. }
  rewrite F.
  destruct (filter (has_bookId bookId) rs) as [|x l]; cbn [app List.length].
  - reflexivity.
  - rewrite length_app, Nat.add_comm. reflexivity.
Qed.

Lemma created_review_is_listed_witness :
  exists review,
    prop review "bookId" = VStr "no-such-book"
    /\ data_of (fst (get_reviews_by_book (GET [] [("bookId", "no-such-book")])
                       (snd (post_reviews sample_env
                               (POST the_key new_review_body) sample_disk))))
       = Some [review].
Proof.
  destruct (created_review_is_listed sample_env (POST the_key new_review_body)
              (GET [] [("bookId", "no-such-book")]) sample_disk
              new_review_body sample_reviews "no-such-book"
              eq_refl eq_refl eq_refl eq_refl eq_refl eq_refl eq_refl eq_refl
              eq_refl eq_refl eq_refl)
    as (review & R & L).
  exists review. split.
  - vm_compute in R. injection R as <-. reflexivity.
  - rewrite L. reflexivity.
Defined.

(** ** Ids stay unique *)




(** ** The best of the books *)




(** The scores are compared as they were rounded: of four books that
    score 0.3 * 1, 0.1 * 3, 1.1 * 3 and 3.3 * 1, the third comes first and
    the second comes before the first. *)
Example top_rated_rounded_scores :
  option_map (map (fun entry => (prop entry "id",
                                 ToString (prop entry "score"))))
    (data_of (fst (get_books_top_rated (GET [] [])
                     (books_disk inexact_books))))
  = Some [(VStr "3", "3.3000000000000003"); (VStr "4", "3.3");
          (VStr "2", "0.30000000000000004"); (VStr "1", "0.3")].
Proof. vm_compute. reflexivity. Qed.

(** Of ten books that score 0.3 and an eleventh that scores 0.1 * 3, it is
    the tenth that is left out. *)
Example top_rated_eleventh_book :
  option_map (map (fun entry => prop entry "id"))
    (data_of (fst (get_books_top_rated (GET [] [])
                     (books_disk eleven_books))))
  = Some [VStr "11"; VStr "1"; VStr "2"; VStr "3"; VStr "4"; VStr "5";
          VStr "6"; VStr "7"; VStr "8"; VStr "9"].
Proof. vm_compute. reflexivity. Qed.

(** ** A wider range of dates *)

Section Ranges.

Variable Date_parse : string -> number.



End Ranges.


(** ** What a new review keeps of the body, on an example *)

Lemma new_review_keeps_the_body_witness :
  exists review d',
    post_reviews sample_env (POST the_key verified_review_body) sample_disk
    = (json 201 [("success", VBool true);
                 ("message", VStr "Review added successfully!");
                 ("data", review)], d')
    /\ prop review "comment" = VStr "Read it twice."
    /\ prop review "verified" = VBool true
    /\ prop review "timestamp" = VStr "2024-05-17T08:30:00.000Z".
Proof.
  destruct (new_review_keeps_the_body sample_env
              (POST the_key verified_review_body) sample_disk
              verified_review_body sample_reviews
              eq_refl eq_refl eq_refl eq_refl eq_refl eq_refl)
    as (review & d' & R & K1 & K2 & K3).
  exists review, d'. split; [exact R|]. split; [|split].
  - apply K1; [reflexivity | discriminate | discriminate].
  - apply K2; [reflexivity | discriminate].
  - exact K3.
Defined.

(** ** The collections across requests *)

Lemma post_books_grows (e : env) (req : request) (d : disk)
      (bs : list value) :
  is_json (body req) = true ->
  holds_json (books_json d) "books" bs ->
  exists added,
    holds_json (books_json (snd (post_books e req d))) "books" (bs ++ added)
    /\ (List.length added <= 1)%nat
    /\ reviews_json (snd (post_books e req d)) = reviews_json d.
Proof.
  intros Hj (Hc & Hr & Hjs & Hw).
  assert (Same : holds_json (books_json d) "books" (bs ++ []))
    by (rewrite app_nil_r; repeat split; assumption).
  unfold post_books, authenticateKey.
  destruct (truthy (req_get req "X-API-Key")
            && includes VALID_API_KEYS (req_get req "X-API-Key"));
    [|exists []; auto].
  unfold try_catch.
  destruct (body req) as [| |b|n|s|l|ps]; try (exists []; auto; fail).
  rewrite !get_object. cbv beta delta [bind ret] iota.
  destruct (truthy (prop (VObj ps) "title")); [|exists []; auto].
  destruct (truthy (prop (VObj ps) "author")); [|exists []; auto].
  destruct (truthy (prop (VObj ps) "price")); [|exists []; auto].
  cbn [negb orb].
  destruct (read_books d bs Hc) as (fs & R & L).
  rewrite R, (get_array_collection _ _ _ _ _ _ L).
  rewrite (Array_map_pure _ (fun b => parseInt (prop b "id")))
    by (apply records_Forall; auto).
  unfold writeJsonFile. cbn [file_named String.eqb Ascii.eqb Bool.eqb].
  rewrite Hw.
  cbn [snd pushed]. exists [bookToAdd e (VObj ps) (next_id bs)].
  split; [|split; [apply Nat.le_refl|reflexivity]].
  assert (Js : forallb is_json (bs ++ [bookToAdd e (VObj ps) (next_id bs)])
               = true).
  { apply forallb_app_one; [exact Hjs|]. apply bookToAdd_json. exact Hj. }
  split; [|split; [|split]].
  - etransitivity; [apply stored_collection|].
    fold (next_id bs). rewrite (json_elements_id _ Js). reflexivity.
  - apply forallb_app_one; [exact Hr|apply bookToAdd_record].
  - exact Js.
  - exact Hw.
Qed.

Lemma post_reviews_grows (e : env) (req : request) (d : disk)
      (rs : list value) :
  is_json (body req) = true ->
  holds_json (reviews_json d) "reviews" rs ->
  exists added,
    holds_json (reviews_json (snd (post_reviews e req d))) "reviews"
               (rs ++ added)
    /\ (List.length added <= 1)%nat
    /\ books_json (snd (post_reviews e req d)) = books_json d.
Proof.
  intros Hj (Hc & Hr & Hjs & Hw).
  assert (Same : holds_json (reviews_json d) "reviews" (rs ++ []))
    by (rewrite app_nil_r; repeat split; assumption).
  unfold post_reviews, authenticateKey.
  destruct (truthy (req_get req "X-API-Key")
            && includes VALID_API_KEYS (req_get req "X-API-Key"));
    [|exists []; auto].
  unfold try_catch.
  destruct (body req) as [| |b|n|s|l|ps]; try (exists []; auto; fail).
  rewrite !get_object. cbv beta delta [bind ret] iota.
  destruct (truthy (prop (VObj ps) "bookId")); [|exists []; auto].
  destruct (truthy (prop (VObj ps) "author")); [|exists []; auto].
  destruct (truthy (prop (VObj ps) "rating")); [|exists []; auto].
  destruct (truthy (prop (VObj ps) "comment")); [|exists []; auto].
  cbn [negb orb].
  destruct (read_reviews d rs Hc) as (fs & R & L).
  rewrite R, (get_array_collection _ _ _ _ _ _ L).
  unfold writeJsonFile. cbn [file_named String.eqb Ascii.eqb Bool.eqb].
  rewrite Hw.
  cbn [snd pushed]. exists [reviewToAdd e (VObj ps)].
  split; [|split; [apply Nat.le_refl|reflexivity]].
  assert (Js : forallb is_json (rs ++ [reviewToAdd e (VObj ps)]) = true).
  { apply forallb_app_one; [exact Hjs|]. apply reviewToAdd_json. exact Hj. }
  split; [|split; [|split]].
  - etransitivity; [apply stored_reviews|].
    rewrite (json_elements_id _ Js). reflexivity.
  - apply forallb_app_one; [exact Hr|apply reviewToAdd_record].
  - exact Js.
  - exact Hw.
Qed.

Section Sequences.

Variable Date_parse : string -> number.

Lemma get_writes_nothing (c : call) (d : disk) :
  is_get c = true -> snd (serve Date_parse c d) = d.
Proof.
  intros G.
  destruct c as [q|q|q|q|q|q|q|e q|e q]; try discriminate G; cbn [serve];
    destruct (get_routes_readonly Date_parse q d)
      as (G1 & G2 & G3 & G4 & G5 & G6 & G7); assumption.
Qed.

Lemma serve_grows (c : call) (d : disk) (bs rs : list value) :
  json_body c ->
  holds_json (books_json d) "books" bs ->
  holds_json (reviews_json d) "reviews" rs ->
  exists bs' rs',
    holds_json (books_json (snd (serve Date_parse c d))) "books" (bs ++ bs')
    /\ holds_json (reviews_json (snd (serve Date_parse c d))) "reviews"
                  (rs ++ rs')
    /\ (List.length bs' + List.length rs' <= 1)%nat.
Proof.
  intros Hj Hb Hr.
  destruct (is_get c) eqn:G.
  - rewrite (get_writes_nothing c d G). exists [], [].
    rewrite !app_nil_r. repeat split; try apply Hb; try apply Hr.
    apply Nat.le_0_l.
  - destruct c as [q|q|q|q|q|q|q|e q|e q]; try discriminate G;
      cbn [serve json_body] in *.
    + destruct (post_books_grows e q d bs Hj Hb) as (added & H & Len & Same).
      exists added, []. rewrite Same, app_nil_r.
      split; [exact H|]. split; [exact Hr|].
      cbn [List.length]. rewrite Nat.add_0_r. exact Len.
    + destruct (post_reviews_grows e q d rs Hj Hr) as (added & H & Len & Same).
      exists [], added. rewrite Same, app_nil_r.
      split; [exact Hb|]. split; [exact H|exact Len].
Qed.

(** X19.  Served one after the other, and as long as no write fails,
    requests take nothing out of the collections and change nothing in
    them: from files that hold collections of records of JSON and take
    writes, and whatever the requests are (their bodies being values of
    JSON), the collections after the requests are the collections before
    them followed by the records added, at most one for each request.
    Requests that overlap are another matter: a book can then be lost,
    as is shown further down. *)
Theorem collections_only_grow (cs : list call) (d : disk)
        (bs rs : list value) :
  Forall json_body cs ->
  holds_json (books_json d) "books" bs ->
  holds_json (reviews_json d) "reviews" rs ->
  exists bs' rs',
    holds_json (books_json (after Date_parse cs d)) "books" (bs ++ bs')
    /\ holds_json (reviews_json (after Date_parse cs d)) "reviews" (rs ++ rs')
    /\ (List.length bs' + List.length rs' <= List.length cs)%nat.
Proof.
  unfold after. intros Hcs. revert d bs rs.
  induction Hcs as [|c r Hc Hr IH]; intros d bs rs Hb Hrv.
  - exists [], []. rewrite !app_nil_r. cbn [fold_left].
    split; [exact Hb|]. split; [exact Hrv|]. apply Nat.le_refl.
  - cbn [fold_left].
    destruct (serve_grows c d bs rs Hc Hb Hrv) as (b1 & r1 & Hb1 & Hr1 & L1).
    destruct (IH _ _ _ Hb1 Hr1) as (b2 & r2 & Hb2 & Hr2 & L2).
    exists (b1 ++ b2), (r1 ++ r2). rewrite !app_assoc.
    split; [exact Hb2|]. split; [exact Hr2|].
    rewrite !length_app. cbn [List.length]. lia.
Qed.

(** X20.  Reading changes nothing: after any number of GET requests the
    files are as they were, so that a request that follows them is
    answered as it would have been before them. *)
Theorem gets_leave_the_files (cs : list call) (c : call) (d : disk) :
  forallb is_get cs = true ->
  after Date_parse cs d = d
  /\ serve Date_parse c (after Date_parse cs d) = serve Date_parse c d.
Proof.
  intros G.
  assert (Same : after Date_parse cs d = d).
  { unfold after. revert d. induction cs as [|c' r IH]; intros d; [reflexivity|].
    cbn [forallb] in G. apply andb_prop in G as [G1 G2].
    cbn [fold_left]. rewrite (get_writes_nothing c' d G1). apply IH. exact G2. }
  rewrite Same. split; reflexivity.
Qed.

End Sequences.

Lemma collections_only_grow_witness :
  exists bs' rs',
    holds_json (books_json
                  (after Date_parse_ISO
                     [PostBooks sample_env (POST the_key new_book_body);
                      GetBooksTopRated (GET [] []);
                      PostReviews sample_env (POST the_key new_review_body);
                      PostBooks sample_env (POST None new_book_body)]
                     sample_disk))
               "books" (sample_books ++ bs')
    /\ holds_json (reviews_json
                     (after Date_parse_ISO
                        [PostBooks sample_env (POST the_key new_book_body);
                         GetBooksTopRated (GET [] []);
                         PostReviews sample_env (POST the_key new_review_body);
                         PostBooks sample_env (POST None new_book_body)]
                        sample_disk))
                  "reviews" (sample_reviews ++ rs')
    /\ (List.length bs' + List.length rs' <= 4)%nat.
Proof.
  apply (collections_only_grow Date_parse_ISO
           [PostBooks sample_env (POST the_key new_book_body);
            GetBooksTopRated (GET [] []);
            PostReviews sample_env (POST the_key new_review_body);
            PostBooks sample_env (POST None new_book_body)]
           sample_disk sample_books sample_reviews).
  - repeat constructor.
  - repeat split; reflexivity.
  - repeat split; reflexivity.
Defined.

Lemma gets_leave_the_files_witness :
  after Date_parse_ISO
    [GetBooks (GET [] []); GetBooksTopRated (GET [] []);
     GetBookById (GET [] [("id", "2")])] sample_disk = sample_disk
  /\ serve Date_parse_ISO (GetBooksFeatured (GET [] []))
       (after Date_parse_ISO
          [GetBooks (GET [] []); GetBooksTopRated (GET [] []);
           GetBookById (GET [] [("id", "2")])] sample_disk)
     = serve Date_parse_ISO (GetBooksFeatured (GET [] [])) sample_disk.
Proof.
  apply (gets_leave_the_files Date_parse_ISO
           [GetBooks (GET [] []); GetBooksTopRated (GET [] []);
            GetBookById (GET [] [("id", "2")])]
           (GetBooksFeatured (GET [] [])) sample_disk).
  reflexivity.
Defined.

(** ** Requests that overlap *)






(* ------------------------------------------------------------------ *)
(** ** The order of the routes *)

(** X21.  The literal routes come before [/api/books/:id].  For a path
    that [/api/books/:id] matches (and neither [/] nor [/api/books]
    does), the by-id route answers only if none of [date-range],
    [featured] and [top-rated] matches: each of these, when it matches,
    answers in its place. *)
Theorem literal_routes_come_first (Date_parse : string -> number)
        (path_match : string -> string -> option (list (string * string)))
        (path : string) (e : env) (req : request)
        (ps : list (string * string)) :
  path_match "/" path = None ->
  path_match "/api/books" path = None ->
  path_match "/api/books/:id" path = Some ps ->
  Router.dispatch path_match (Router.app Date_parse) Router.Get path e req
  = match path_match "/api/books/date-range" path,
          path_match "/api/books/featured" path,
          path_match "/api/books/top-rated" path with
    | Some bound, _, _ =>
        Some (get_books_date_range Date_parse (Router.with_params req bound))
    | None, Some bound, _ =>
        Some (get_books_featured (Router.with_params req bound))
    | None, None, Some bound =>
        Some (get_books_top_rated (Router.with_params req bound))
    | None, None, None => Some (get_book_by_id (Router.with_params req ps))
    end.
Proof.
  intros H1 H2 H3.
  cbn [Router.dispatch Router.app Router.method_eqb Router.route_method
         Router.route_path Router.route_handler].
  rewrite H1, H2.
  destruct (path_match "/api/books/date-range" path); [reflexivity|].
  destruct (path_match "/api/books/featured" path); [reflexivity|].
  destruct (path_match "/api/books/top-rated" path); [reflexivity|].
  rewrite H3. reflexivity.
Qed.

Lemma literal_routes_come_first_witness :
  Router.dispatch Router.match_by_segments (Router.app Date_parse_ISO)
                  Router.Get "/api/books/featured" sample_env (GET [] [])
  = Some (get_books_featured (GET [] []))
  /\ Router.dispatch Router.match_by_segments (Router.app Date_parse_ISO)
                     Router.Get "/api/books/2" sample_env (GET [] [])
     = Some (get_book_by_id (GET [] [("id", "2")])).
Proof.
  split.
  - exact (literal_routes_come_first Date_parse_ISO Router.match_by_segments
             "/api/books/featured" sample_env (GET [] []) [("id", "featured")]
             eq_refl eq_refl eq_refl).
  - exact (literal_routes_come_first Date_parse_ISO Router.match_by_segments
             "/api/books/2" sample_env (GET [] []) [("id", "2")]
             eq_refl eq_refl eq_refl).
Defined.

(** X22.  The earlier copy of the server and [server.js] route a GET
    request to the same handler, unless its path is [/], or is one that
    only [server.js] knows: [featured], [top-rated] and the reviews of a
    book.  A path that [featured] matches is answered by the featured
    route in [server.js], where the earlier copy took its last segment
    for the id of a book; and the earlier copy answers no POST request. *)
Theorem earlier_routes_are_kept (Date_parse : string -> number)
        (path_match : string -> string -> option (list (string * string)))
        (path : string) (e : env) (req : request) :
  let later := Router.dispatch path_match (Router.app Date_parse) in
  let earlier := Router.dispatch path_match (Router.app_earlier Date_parse) in
  path_match "/" path = None ->
  (path_match "/api/books/featured" path = None ->
   path_match "/api/books/top-rated" path = None ->
   path_match "/api/reviews/book/:bookId" path = None ->
   later Router.Get path e req = earlier Router.Get path e req)
  /\ (forall bound ps,
        path_match "/api/books" path = None ->
        path_match "/api/books/date-range" path = None ->
        path_match "/api/books/featured" path = Some bound ->
        path_match "/api/books/:id" path = Some ps ->
        later Router.Get path e req
        = Some (get_books_featured (Router.with_params req bound))
        /\ earlier Router.Get path e req
           = Some (get_book_by_id (Router.with_params req ps)))
  /\ earlier Router.Post path e req = None.
Proof.
  intros later earlier H1. subst later earlier.
  cbn [Router.dispatch Router.app Router.app_earlier Router.method_eqb
         Router.route_method Router.route_path Router.route_handler].
  rewrite H1. split; [|split; [|reflexivity]].
  - intros F T R. rewrite F, T, R.
    destruct (path_match "/api/books" path); [reflexivity|].
    destruct (path_match "/api/books/date-range" path); [reflexivity|].
    destruct (path_match "/api/books/:id" path); reflexivity.
  - intros bound ps B D F I. rewrite B, D, F, I. split; reflexivity.
Qed.

Lemma earlier_routes_are_kept_witness :
  Router.dispatch Router.match_by_segments (Router.app Date_parse_ISO)
                  Router.Get "/api/books/featured" sample_env (GET [] [])
  = Some (get_books_featured (GET [] []))
  /\ Router.dispatch Router.match_by_segments
                     (Router.app_earlier Date_parse_ISO)
                     Router.Get "/api/books/featured" sample_env (GET [] [])
     = Some (get_book_by_id (GET [] [("id", "featured")])).
Proof.
  exact (proj1 (proj2 (earlier_routes_are_kept
                         Date_parse_ISO Router.match_by_segments
                         "/api/books/featured" sample_env (GET [] []) eq_refl))
           [] [("id", "featured")] eq_refl eq_refl eq_refl eq_refl).
Defined.
